(** * Actuator endpoints of the Flask demo application

    A shallow embedding of [app/actuator.py] (class [FlaskActuator]) and the
    properties its specification states about it.

    Conventions of the embedding.
    - Python [int] is [Z]; Python [float] is an exact rational [Q] (binary64
      rounding is not modelled: the thresholds and the clock arithmetic are
      read over the rationals).
    - Python [str] is [string]; a [dict] with string keys is a
      [gmap string _]; a [list] is a [list].
    - A raised [Exception] is the [Raise] case of [result]; only [str(e)] is
      observable by the handlers, so that is all it carries.
    - What a handler reads from outside (psutil, the clock, [os.environ], the
      interpreter and platform strings) is a field of [Host]: one snapshot
      per invocation. *)

From Stdlib Require Import ZArith QArith Lqa Lia String Ascii List.
From Stdlib Require Import PrimFloat Uint63.
From stdpp Require Import gmap strings pretty.

Set Warnings "-register-all".

Open Scope string_scope.

(** ** Exceptions *)

Inductive result (A : Type) : Type :=
  | Ok (a : A)
  | Raise (msg : string).

Arguments Ok {A} a.
Arguments Raise {A} msg.

(** Sequencing: the first statement that raises ends the block. *)
#[global] Instance result_bind : MBind result := fun A B k m =>
  match m with
  | Ok a => k a
  | Raise msg => Raise msg
  end.

(** [try: body except Exception as e: handler e] *)
Definition try_except {A : Type} (body : result A) (handler : string -> result A)
  : result A :=
  match body with
  | Ok a => Ok a
  | Raise msg => handler msg
  end.

(** ** JSON values and Flask responses *)

Inductive json : Type :=
  | JNull
  | JBool (b : bool)
  | JInt (z : Z)
  | JNum (q : Q)
  | JStr (s : string)
  | JArr (l : list json)
  | JObj (m : gmap string json).

Record response : Type := mkResponse {
  body : json;
  status_code : Z
}.

(** [jsonify(x)] answers 200; [return jsonify(x), code] overrides the code. *)
Definition jsonify (j : json) : response :=
  {| body := j; status_code := 200 |}.

Definition with_status (r : response) (code : Z) : response :=
  {| body := body r; status_code := code |}.

(** Field access along a path of keys, as a client reading the payload. *)
Fixpoint get_path (p : list string) (j : json) : option json :=
  match p with
  | [] => Some j
  | k :: p' =>
      match j with
      | JObj m => match m !! k with
                  | Some j' => get_path p' j'
                  | None => None
                  end
      | _ => None
      end
  end.

(** Overwrite the value found at a path (nothing happens if it is absent). *)
Fixpoint set_path (p : list string) (v : json) (j : json) : json :=
  match p with
  | [] => v
  | k :: p' =>
      match j with
      | JObj m => JObj (alter (set_path p' v) k m)
      | _ => j
      end
  end.

(** ** Python arithmetic *)

Definition Qltb (x y : Q) : bool :=
  (Qnum x * QDen y <? Qnum y * QDen x)%Z.

(** [a / b] on two ints: true division, [ZeroDivisionError] on [b = 0]. *)
Definition truediv (a b : Z) : result Q :=
  if (b =? 0)%Z then Raise "division by zero"
  else Ok (inject_Z a / inject_Z b)%Q.

(** [int(x)] on a float: truncation towards zero. *)
Definition int_of_float (x : Q) : Z :=
  (Qnum x ÷ QDen x)%Z.

(** ** Python strings *)

Definition lower_ascii (c : ascii) : ascii :=
  let n := nat_of_ascii c in
  if (65 <=? n)%nat && (n <=? 90)%nat then ascii_of_nat (n + 32) else c.

(** [s.lower()], on names written in ASCII *)
Fixpoint lower (s : string) : string :=
  match s with
  | EmptyString => EmptyString
  | String c s' => String (lower_ascii c) (lower s')
  end.

Fixpoint startswith (sub s : string) : bool :=
  match sub, s with
  | EmptyString, _ => true
  | String _ _, EmptyString => false
  | String a sub', String b s' => Ascii.eqb a b && startswith sub' s'
  end.

(** [sub in s] *)
Fixpoint contains (sub s : string) : bool :=
  startswith sub s ||
  match s with
  | EmptyString => false
  | String _ s' => contains sub s'
  end.

(** [f"{n}"] for an int *)
Definition str_of_int (n : Z) : string := pretty n.

(** ** psutil results *)

Module sdiskusage.
Record t : Type := mk { total : Z; used : Z; free : Z; percent : Q }.
End sdiskusage.

Module svmem.
Record t : Type := mk { total : Z; available : Z; percent : Q }.
End svmem.

(** ** The host, as one invocation sees it *)

(** Interpreter and platform strings: fixed for the life of the process. *)
Record Platform : Type := mkPlatform {
  sys_version : string;
  sys_version_info_major : Z;
  sys_version_info_minor : Z;
  sys_version_info_micro : Z;
  platform_python_implementation : string;
  platform_system : string;
  platform_release : string;
  platform_machine : string;
  platform_processor : string
}.

Record Host : Type := mkHost {
  disk_usage : result sdiskusage.t;        (* psutil.disk_usage('/') *)
  virtual_memory : result svmem.t;         (* psutil.virtual_memory() *)
  cpu_percent : result Q;                  (* psutil.cpu_percent(interval=1) *)
  time_time : Q;                           (* time.time() *)
  datetime_now_isoformat : string;         (* datetime.now().isoformat() *)
  environ : gmap string string;            (* os.environ *)
  platform : Platform
}.

(** [os.getenv(key, default)] *)
Definition getenv (h : Host) (key default : string) : string :=
  match environ h !! key with
  | Some v => v
  | None => default
  end.

Record FlaskActuator : Type := mkActuator {
  start_time : Q                           (* time.time() at construction *)
}.

(** ** [health] *)

Definition health_try (h : Host) : result response :=
  disk_usage ← disk_usage h;
  ratio ← truediv (sdiskusage.free disk_usage) (sdiskusage.total disk_usage);
  let disk_free_percent := (ratio * 100)%Q in
  let disk_status := if Qltb 10 disk_free_percent then "UP" else "DOWN" in
  memory ← virtual_memory h;
  let memory_status := if Qltb (svmem.percent memory) 90 then "UP" else "DOWN" in
  let overall_status :=
    if String.eqb disk_status "UP" && String.eqb memory_status "UP"
    then "UP" else "DOWN" in
  Ok (jsonify (JObj {[
    "status" := JStr overall_status;
    "components" := JObj {[
      "diskSpace" := JObj {[
        "status" := JStr disk_status;
        "details" := JObj {[
          "total" := JInt (sdiskusage.total disk_usage);
          "free" := JInt (sdiskusage.free disk_usage);
          "threshold" := JNum (inject_Z (sdiskusage.total disk_usage) * (1 # 10))%Q;
          "exists" := JBool true ]} ]};
      "memory" := JObj {[
        "status" := JStr memory_status;
        "details" := JObj {[
          "total" := JInt (svmem.total memory);
          "available" := JInt (svmem.available memory);
          "percent" := JNum (svmem.percent memory) ]} ]};
      "ping" := JObj {[ "status" := JStr "UP" ]} ]} ]})).

Definition health_except (e : string) : result response :=
  Ok (with_status
        (jsonify (JObj {[
           "status" := JStr "DOWN";
           "details" := JObj {[ "error" := JStr e ]} ]}))
        503).

Definition health (self : FlaskActuator) (h : Host) : result response :=
  try_except (health_try h) health_except.

(** ** [info] *)

Definition info (self : FlaskActuator) (h : Host) : response :=
  let uptime_seconds := int_of_float (time_time h - start_time self)%Q in
  jsonify (JObj {[
    "app" := JObj {[
      "name" := JStr (getenv h "APP_NAME" "flask-web");
      "version" := JStr (getenv h "APP_VERSION" "1.0.0");
      "description" := JStr "Flask Web Application with Actuator";
      "uptime" := JStr (str_of_int uptime_seconds +:+ "s") ]};
    "build" := JObj {[
      "version" := JStr (getenv h "APP_VERSION" "1.0.0");
      "artifact" := JStr (getenv h "APP_NAME" "flask-web");
      "name" := JStr (getenv h "APP_NAME" "flask-web");
      "time" := JStr (getenv h "BUILD_TIME" (datetime_now_isoformat h));
      "group" := JStr "me-test" ]};
    "git" := JObj {[
      "branch" := JStr (getenv h "GIT_BRANCH" "unknown");
      "commit" := JObj {[
        "id" := JStr (getenv h "GIT_COMMIT_HASH" "unknown");
        "time" := JStr (getenv h "GIT_COMMIT_TIME" "unknown") ]} ]};
    "environment" := JStr (getenv h "ENVIRONMENT" "development");
    "python" := JObj {[
      "version" := JStr (sys_version (platform h));
      "implementation" := JStr (platform_python_implementation (platform h));
      "version_info" := JObj {[
        "major" := JInt (sys_version_info_major (platform h));
        "minor" := JInt (sys_version_info_minor (platform h));
        "micro" := JInt (sys_version_info_micro (platform h)) ]} ]};
    "os" := JObj {[
      "name" := JStr (platform_system (platform h));
      "version" := JStr (platform_release (platform h));
      "arch" := JStr (platform_machine (platform h));
      "processor" := JStr (platform_processor (platform h)) ]} ]}).

(** ** [metrics] *)

Definition metric_names : list string :=
  [ "system.cpu.usage"; "system.memory.usage"; "system.memory.total";
    "system.disk.usage"; "system.disk.total"; "process.uptime" ].

Definition measurement (value : json) : json :=
  JObj {[ "statistic" := JStr "VALUE"; "value" := value ]}.

Definition metrics_try (self : FlaskActuator) (h : Host) : result response :=
  cpu_percent ← cpu_percent h;
  memory ← virtual_memory h;
  disk ← disk_usage h;
  disk_ratio ← truediv (sdiskusage.used disk) (sdiskusage.total disk);
  Ok (jsonify (JObj {[
    "names" := JArr [
      JStr "system.cpu.usage";
      JStr "system.memory.usage";
      JStr "system.memory.total";
      JStr "system.disk.usage";
      JStr "system.disk.total";
      JStr "process.uptime" ];
    "measurements" := JObj {[
      "system.cpu.usage" := measurement (JNum cpu_percent);
      "system.memory.usage" := measurement (JNum (svmem.percent memory));
      "system.memory.total" := measurement (JInt (svmem.total memory));
      "system.disk.usage" := measurement (JNum (disk_ratio * 100)%Q);
      "system.disk.total" := measurement (JInt (sdiskusage.total disk));
      "process.uptime" := measurement (JNum (time_time h - start_time self)%Q) ]} ]})).

Definition metrics_except (e : string) : result response :=
  Ok (with_status (jsonify (JObj {[ "error" := JStr e ]})) 500).

Definition metrics (self : FlaskActuator) (h : Host) : result response :=
  try_except (metrics_try self h) metrics_except.

(** ** [env] *)

Definition denylist : list string :=
  [ "password"; "secret"; "key"; "token"; "credential"; "auth" ].

(** [any(secret in k.lower() for secret in denylist)] *)
Definition is_sensitive (k : string) : bool :=
  existsb (fun secret => contains secret (lower k)) denylist.

Definition safe_env_vars (h : Host) : gmap string string :=
  filter (fun kv => is_sensitive kv.1 = false) (environ h).

Definition env (self : FlaskActuator) (h : Host) : response :=
  jsonify (JObj {[
    "activeProfiles" := JArr [ JStr (getenv h "ENVIRONMENT" "development") ];
    "propertySources" := JArr [
      JObj {[
        "name" := JStr "systemEnvironment";
        "properties" :=
          JObj ((fun v => JObj {[ "value" := JStr v ]}) <$> safe_env_vars h) ]} ] ]}).

(** ** [configprops] *)

Definition configprops (self : FlaskActuator) (h : Host) : response :=
  jsonify (JObj {[
    "contexts" := JObj {[
      "application" := JObj {[
        "beans" := JObj {[
          "flask-config" := JObj {[
            "prefix" := JStr "flask";
            "properties" := JObj {[
              "debug" := JStr (getenv h "FLASK_DEBUG" "False");
              "testing" := JStr (getenv h "FLASK_TESTING" "False");
              "port" := JStr (getenv h "PORT" "8080");
              "host" := JStr (getenv h "HOST" "0.0.0.0") ]} ]} ]} ]} ]} ]}).


(** * Vocabulary of the specification *)

(** The ratio free/total of the root filesystem; it exists only for a
    non-zero total, which [free_ratio_above] makes explicit. *)
Definition free_ratio (d : sdiskusage.t) : Q :=
  (inject_Z (sdiskusage.free d) / inject_Z (sdiskusage.total d))%Q.


Definition disk_status_of (d : sdiskusage.t) : string :=
  if Qltb 10 (free_ratio d * 100)%Q then "UP" else "DOWN".

Definition memory_status_of (m : svmem.t) : string :=
  if Qltb (svmem.percent m) 90 then "UP" else "DOWN".

(** The two error payloads. *)
Definition health_down (e : string) : response :=
  {| body := JObj {[ "status" := JStr "DOWN";
                     "details" := JObj {[ "error" := JStr e ]} ]};
     status_code := 503 |}.

Definition metrics_error (e : string) : response :=
  {| body := JObj {[ "error" := JStr e ]}; status_code := 500 |}.

(** A name contains [sub] case-insensitively: some slice of it equals [sub]
    up to the case of its letters. *)
Definition contains_ci (name sub : string) : Prop :=
  exists a w b, name = a +:+ w +:+ b /\ lower w = lower sub.

Definition sensitive_name (name : string) : Prop :=
  exists sub, In sub denylist /\ contains_ci name sub.

(** The uptime the two handlers report: whole seconds for [info], the exact
    difference for [metrics]. *)
Definition uptime (self : FlaskActuator) (h : Host) : Q :=
  (time_time h - start_time self)%Q.

Definition uptime_seconds (self : FlaskActuator) (h : Host) : Z :=
  int_of_float (uptime self h).

(** The configuration variables [info] reads. *)
Definition info_config_vars : list string :=
  [ "APP_NAME"; "APP_VERSION"; "BUILD_TIME"; "GIT_BRANCH";
    "GIT_COMMIT_HASH"; "GIT_COMMIT_TIME"; "ENVIRONMENT" ].

(** The fields of an [info] payload tied to the wall clock, blanked out:
    the uptime always, the build time when [BUILD_TIME] is not set. *)
Definition erase_clock_fields (h : Host) (j : json) : json :=
  let j := set_path ["app"; "uptime"] JNull j in
  match environ h !! "BUILD_TIME" with
  | Some _ => j
  | None => set_path ["build"; "time"] JNull j
  end.

(** Two paths part ways: neither leads through the other. *)
Fixpoint diverge (p q : list string) : Prop :=
  match p, q with
  | k :: p', k' :: q' => k <> k' \/ diverge p' q'
  | _, _ => False
  end.

(** The disk check as binary64 arithmetic carries it out, for byte counts
    below 2^53 (where the conversion of an int is exact and [/] is the
    correctly rounded quotient). It is used to cross-check the rational
    reading at the thresholds. *)
Definition float_of_int (n : Z) : float :=
  PrimFloat.of_uint63 (Uint63.of_Z n).

Definition disk_status64 (d : sdiskusage.t) : string :=
  let disk_free_percent :=
    PrimFloat.mul
      (PrimFloat.div (float_of_int (sdiskusage.free d))
                     (float_of_int (sdiskusage.total d)))
      (float_of_int 100) in
  if PrimFloat.ltb (float_of_int 10) disk_free_percent then "UP" else "DOWN".

(** * Sample hosts *)

Definition cpython : Platform := {|
  sys_version := "3.11.4 (main)";
  sys_version_info_major := 3;
  sys_version_info_minor := 11;
  sys_version_info_micro := 4;
  platform_python_implementation := "CPython";
  platform_system := "Linux";
  platform_release := "6.1.0";
  platform_machine := "x86_64";
  platform_processor := "" |}.

Definition sample_environ : gmap string string :=
  {[ "PATH" := "/usr/bin"; "HOME" := "/root"; "API_KEY" := "k-123";
     "Db_Password" := "hunter2"; "AUTHOR" := "me"; "PORT" := "9090" ]}.

Definition sample_host (disk : result sdiskusage.t) (mem : result svmem.t)
    (cpu : result Q) (now : Q) (environ : gmap string string) : Host := {|
  disk_usage := disk;
  virtual_memory := mem;
  cpu_percent := cpu;
  time_time := now;
  datetime_now_isoformat := "2024-05-01T12:00:00.000000";
  environ := environ;
  platform := cpython |}.

Definition actuator0 : FlaskActuator := {| start_time := 1000 # 1 |}.

Definition disk_half : sdiskusage.t := sdiskusage.mk 1000 500 500 50.
Definition disk_low : sdiskusage.t := sdiskusage.mk 1000 950 50 95.
Definition disk_tenth : sdiskusage.t := sdiskusage.mk 1000 900 100 90.
Definition disk_above_tenth : sdiskusage.t := sdiskusage.mk 1000 899 101 (899 # 10).
Definition disk_empty : sdiskusage.t := sdiskusage.mk 0 0 0 0.
Definition mem_half : svmem.t := svmem.mk 8000 4000 50.
Definition mem_ninety : svmem.t := svmem.mk 8000 800 90.
Definition mem_below_ninety : svmem.t := svmem.mk 8000 808 (899 # 10).

Definition host_healthy : Host :=
  sample_host (Ok disk_half) (Ok mem_half) (Ok (25 # 2)) (20105 # 20) sample_environ.
Definition host_later : Host :=
  sample_host (Ok disk_half) (Ok mem_half) (Ok (3 # 1)) (1042 # 1) sample_environ.
Definition host_at_thresholds : Host :=
  sample_host (Ok disk_tenth) (Ok mem_ninety) (Ok (1 # 1)) (1001 # 1) sample_environ.
Definition host_past_thresholds : Host :=
  sample_host (Ok disk_above_tenth) (Ok mem_below_ninety) (Ok (1 # 1)) (1001 # 1)
    sample_environ.
Definition host_low_disk : Host :=
  sample_host (Ok disk_low) (Ok mem_half) (Ok (1 # 1)) (1001 # 1) sample_environ.
Definition host_zero_total : Host :=
  sample_host (Ok disk_empty) (Ok mem_half) (Ok (1 # 1)) (1001 # 1) sample_environ.
Definition host_disk_error : Host :=
  sample_host (Raise "[Errno 13] Permission denied: '/'") (Ok mem_half) (Ok (1 # 1)) (1001 # 1) ∅.
Definition host_unset : Host :=
  sample_host (Ok disk_half) (Ok mem_half) (Ok (1 # 1)) (1001 # 1) ∅.

(** * The rest of the application *)

(** ** More Python strings *)

(** [c.isspace()] on ASCII: tab to carriage return, the four separators
    0x1c-0x1f, and space. *)
Definition isspace (c : ascii) : bool :=
  let n := nat_of_ascii c in
  ((9 <=? n)%nat && (n <=? 13)%nat) || ((28 <=? n)%nat && (n <=? 32)%nat).

Fixpoint lstrip (s : string) : string :=
  match s with
  | EmptyString => EmptyString
  | String c s' => if isspace c then lstrip s' else s
  end.

Fixpoint rstrip (s : string) : string :=
  match s with
  | EmptyString => EmptyString
  | String c s' =>
      match rstrip s' with
      | EmptyString => if isspace c then EmptyString else String c EmptyString
      | t => String c t
      end
  end.

(** [s.strip()] *)
Definition strip (s : string) : string := rstrip (lstrip s).

(** [s[:n]] *)
Fixpoint slice_to (n : nat) (s : string) : string :=
  match n, s with
  | S n', String c s' => String c (slice_to n' s')
  | _, _ => EmptyString
  end.

(** Truth value of a string in a condition: non-empty. *)
Definition truthy (s : string) : bool :=
  match s with
  | EmptyString => false
  | String _ _ => true
  end.

(** ** What [app.py] reads besides the actuator's host *)

(** As for [Host], one snapshot per request: a file read twice while one
    request is served gives the same both times. *)

Record AppHost : Type := mkAppHost {
  host : Host;
  app_directory : string;                   (* os.path.dirname(__file__) *)
  getcwd : result string;                   (* os.getcwd() *)
  (* app/commit.txt: [None] when os.path.exists is False, else what
     open(...).read() gives *)
  commit_file : option (result string);
  (* the service-account namespace file, likewise *)
  namespace_file : option (result string);
  (* subprocess.run(['git', 'rev-parse', 'HEAD'], cwd=...): returncode and
     stdout, in the app directory and in its parent *)
  git_rev_parse_app : result (Z * string);
  git_rev_parse_parent : result (Z * string);
  git_directory_exists : bool;              (* os.path.exists(app/.git) *)
  parent_git_exists : bool;                 (* os.path.exists(../.git) *)
  (* from .actuator import FlaskActuator: returns, or raises ImportError *)
  actuator_import : result unit
}.

(** ** [get_git_commit_hash] *)

(** A usable hash: non-empty and not the placeholder. *)
Definition usable (s : string) : bool :=
  truthy s && negb (String.eqb s "unknown").

(** The body of the first try block: [Some] is an early return. *)
Definition commit_file_block (a : AppHost) : result (option string) :=
  match commit_file a with
  | Some read =>
      raw ← read;
      let content := strip raw in
      if usable content then Ok (Some (slice_to 8 content)) else Ok None
  | None => Ok None
  end.

Definition git_stdout (r : Z * string) : option string :=
  if (r.1 =? 0)%Z && truthy (strip r.2) then Some (slice_to 8 (strip r.2))
  else None.

(** The body of the second try block. *)
Definition git_block (a : AppHost) : result (option string) :=
  r ← git_rev_parse_app a;
  match git_stdout r with
  | Some c => Ok (Some c)
  | None =>
      r' ← git_rev_parse_parent a;
      Ok (git_stdout r')
  end.

(** The value returned, and the lines printed on the way. *)
Definition get_git_commit_hash (a : AppHost) : string * list string :=
  let from_env :=
    match environ (host a) !! "GIT_COMMIT_HASH" with
    | Some commit_hash =>
        if usable commit_hash then Some (slice_to 8 commit_hash) else None
    | None => None
    end in
  match from_env with
  | Some c => (c, [])
  | None =>
      let '(from_file, out1) :=
        match commit_file_block a with
        | Ok r => (r, [])
        | Raise e => (None, ["Error reading commit file: " +:+ e])
        end in
      match from_file with
      | Some c => (c, out1)
      | None =>
          match git_block a with
          | Ok (Some c) => (c, out1)
          | Ok None => ("unknown", out1)
          | Raise e =>
              ("unknown", (out1 ++ ["Error running git command: " +:+ e])%list)
          end
      end
  end.

(** GIT_COMMIT_HASH gives nothing to return: unset, or set to a value that
    is not usable. *)
Definition env_commit_unusable (h : Host) : Prop :=
  match environ h !! "GIT_COMMIT_HASH" with
  | Some c => usable c = false
  | None => True
  end.

(** ** [get_kubernetes_namespace] *)

Definition get_kubernetes_namespace (a : AppHost) : string :=
  let fallback :=
    getenv (host a) "KUBERNETES_NAMESPACE"
      (getenv (host a) "ENVIRONMENT" "development") in
  match namespace_file a with
  | Some (Ok raw) => strip raw
  | Some (Raise _) => fallback
  | None => fallback
  end.

(** ** Views and the Flask application *)

Inductive payload : Type :=
  | JsonBody (j : json)
  | TextBody (s : string).

Record http_response : Type := mkHttp {
  http_body : payload;
  http_status : Z
}.

Definition of_response (r : response) : http_response :=
  {| http_body := JsonBody (body r); http_status := status_code r |}.

(** [FlaskActuator.actuator_index] *)
Definition actuator_index (self : FlaskActuator) : response :=
  jsonify (JObj {[
    "_links" := JObj {[
      "self" := JObj {[ "href" := JStr "/actuator" ]};
      "health" := JObj {[ "href" := JStr "/actuator/health" ]};
      "info" := JObj {[ "href" := JStr "/actuator/info" ]};
      "metrics" := JObj {[ "href" := JStr "/actuator/metrics" ]};
      "env" := JObj {[ "href" := JStr "/actuator/env" ]};
      "configprops" := JObj {[ "href" := JStr "/actuator/configprops" ]} ]} ]}).

(** [healthz] *)
Definition healthz : response :=
  with_status (jsonify (JObj {[ "status" := JStr "ok" ]})) 200.

(** [home]: the text answered and the lines printed. *)
Definition home (a : AppHost) : http_response * list string :=
  let '(commit_hash, out) := get_git_commit_hash a in
  let environment := get_kubernetes_namespace a in
  ({| http_body :=
        TextBody ("Hello from Flask! | Environment: " +:+ environment +:+
                  " | Commit: " +:+ commit_hash);
      http_status := 200 |},
   (out ++ [ "Debug - Commit hash: " +:+ commit_hash;
             "Debug - Environment: " +:+ environment;
             "Debug - GIT_COMMIT_HASH env var: " +:+
               getenv (host a) "GIT_COMMIT_HASH" "Not set" ])%list).

(** [debug]: the dict literal, then the optional file entry. *)
Definition debug (a : AppHost) : result (response * list string) :=
  let environment := get_kubernetes_namespace a in
  current_directory ← getcwd a;
  let '(computed_commit_hash, out) := get_git_commit_hash a in
  let debug_info : gmap string json := {[
    "git_commit_hash_env" := JStr (getenv (host a) "GIT_COMMIT_HASH" "Not set");
    "build_time_env" := JStr (getenv (host a) "BUILD_TIME" "Not set");
    "git_branch_env" := JStr (getenv (host a) "GIT_BRANCH" "Not set");
    "environment" := JStr environment;
    "current_directory" := JStr current_directory;
    "app_directory" := JStr (app_directory a);
    "commit_file_exists" := JBool (bool_decide (is_Some (commit_file a)));
    "git_directory_exists" := JBool (git_directory_exists a);
    "parent_git_exists" := JBool (parent_git_exists a);
    "computed_commit_hash" := JStr computed_commit_hash ]} in
  let debug_info :=
    match commit_file a with
    | Some (Ok raw) => <["commit_file_content" := JStr (strip raw)]> debug_info
    | Some (Raise e) => <["commit_file_error" := JStr e]> debug_info
    | None => debug_info
    end in
  Ok (with_status (jsonify (JObj debug_info)) 200, out).

(** A view function: a bound method of an actuator, or one of the three
    functions [create_app] defines. *)
Inductive view : Type :=
  | view_actuator_index (self : FlaskActuator)
  | view_health (self : FlaskActuator)
  | view_info (self : FlaskActuator)
  | view_metrics (self : FlaskActuator)
  | view_env (self : FlaskActuator)
  | view_configprops (self : FlaskActuator)
  | view_healthz
  | view_debug
  | view_home.

(** Calling a view on the host as it is at the time of the request. *)
Definition call_view (v : view) (a : AppHost) : result (http_response * list string) :=
  match v with
  | view_actuator_index self => Ok (of_response (actuator_index self), [])
  | view_health self => r ← health self (host a); Ok (of_response r, [])
  | view_info self => Ok (of_response (info self (host a)), [])
  | view_metrics self => r ← metrics self (host a); Ok (of_response r, [])
  | view_env self => Ok (of_response (env self (host a)), [])
  | view_configprops self => Ok (of_response (configprops self (host a)), [])
  | view_healthz => Ok (of_response healthz, [])
  | view_debug => '(r, out) ← debug a; Ok (of_response r, out)
  | view_home => Ok (home a)
  end.

(** The part of a Flask application the code touches: the rules in the order
    they were added, each with its endpoint name, and the view function of
    each endpoint. Flask refuses an endpoint name that is taken by another
    function; the names used here are pairwise distinct (see
    [create_app_endpoints_distinct]), so that check is left out. *)
Record Flask : Type := mkFlask {
  url_map : list (string * string);
  view_functions : gmap string view
}.

Definition Flask_new : Flask :=
  {| url_map := []; view_functions := ∅ |}.

Definition add_url_rule (rule endpoint : string) (view_func : view) (app : Flask)
  : Flask :=
  {| url_map := (url_map app ++ [(rule, endpoint)])%list;
     view_functions := <[endpoint := view_func]> (view_functions app) |}.

(** [FlaskActuator.register_endpoints] *)
Definition register_endpoints (self : FlaskActuator) (app : Flask) : Flask :=
  let app := add_url_rule "/actuator" "actuator_index" (view_actuator_index self) app in
  let app := add_url_rule "/actuator/health" "actuator_health" (view_health self) app in
  let app := add_url_rule "/actuator/info" "actuator_info" (view_info self) app in
  let app := add_url_rule "/actuator/metrics" "actuator_metrics" (view_metrics self) app in
  let app := add_url_rule "/actuator/env" "actuator_env" (view_env self) app in
  add_url_rule "/actuator/configprops" "actuator_configprops"
    (view_configprops self) app.

(** [FlaskActuator.init_app] *)
Definition init_app (self : FlaskActuator) (app : Flask) : Flask :=
  register_endpoints self app.

(** [FlaskActuator.__init__]: the start time is the clock reading of the
    moment; with an app given, the endpoints are registered on it. *)
Definition FlaskActuator_init (h : Host) (app : option Flask)
  : FlaskActuator * option Flask :=
  let self := {| start_time := time_time h |} in
  match app with
  | Some app => (self, Some (init_app self app))
  | None => (self, None)
  end.

(** [create_app], run on the host as it is at start-up. *)
Definition create_app (a : AppHost) : Flask * list string :=
  let app := Flask_new in
  let '(app, out) :=
    match actuator_import a with
    | Ok _ =>
        match FlaskActuator_init (host a) (Some app) with
        | (_, Some app') => (app', ["Flask Actuator initialized successfully"])
        | (_, None) => (app, ["Flask Actuator initialized successfully"])
        end
    | Raise e => (app, ["Flask Actuator not available: " +:+ e])
    end in
  let app := add_url_rule "/healthz" "healthz" view_healthz app in
  let app := add_url_rule "/debug" "debug" view_debug app in
  let app := add_url_rule "/" "home" view_home app in
  (app, out).

(** Routing of a GET request: the first rule equal to the path picks the
    endpoint (all rules here are static); [None] is Flask's 404. *)
Definition match_rule (app : Flask) (path : string) : option string :=
  snd <$> List.find (fun r => String.eqb r.1 path) (url_map app).

Definition dispatch (app : Flask) (path : string) : option view :=
  endpoint ← match_rule app path;
  view_functions app !! endpoint.

Definition handle (app : Flask) (path : string) (a : AppHost)
  : option (result (http_response * list string)) :=
  (fun v => call_view v a) <$> dispatch app path.

(** The hrefs a client finds in the index. *)
Definition index_hrefs (self : FlaskActuator) : list string :=
  match get_path ["_links"] (body (actuator_index self)) with
  | Some (JObj links) =>
      omap (fun l => match get_path ["href"] l.2 with
                     | Some (JStr s) => Some s
                     | _ => None
                     end) (map_to_list links)
  | _ => []
  end.

(** ** Sample application hosts *)

Definition newline : string := String "010"%char EmptyString.

Definition sample_app_host (h : Host) (commit ns : option (result string))
    (git_app git_parent : result (Z * string)) (import : result unit) : AppHost := {|
  host := h;
  app_directory := "/srv/app";
  getcwd := Ok "/srv";
  commit_file := commit;
  namespace_file := ns;
  git_rev_parse_app := git_app;
  git_rev_parse_parent := git_parent;
  git_directory_exists := false;
  parent_git_exists := true;
  actuator_import := import |}.

Definition host_with_commit : Host :=
  sample_host (Ok disk_half) (Ok mem_half) (Ok (1 # 1)) (1001 # 1)
    {[ "GIT_COMMIT_HASH" := "abc12345def67890"; "APP_VERSION" := "2.3.1";
       "ENVIRONMENT" := "staging" ]}.

Definition no_git : result (Z * string) :=
  Raise "[Errno 2] No such file or directory: 'git'".

Definition app_host_env : AppHost :=
  sample_app_host host_with_commit None None no_git no_git (Ok ()).


Definition app_host_git : AppHost :=
  sample_app_host host_unset None None
    (Ok (128%Z, "")) (Ok (0%Z, "fedcba9876543210" +:+ newline)) (Ok ()).

Definition host_commit_unknown : Host :=
  sample_host (Ok disk_half) (Ok mem_half) (Ok (1 # 1)) (1001 # 1)
    {[ "GIT_COMMIT_HASH" := "unknown"; "KUBERNETES_NAMESPACE" := "team-a" ]}.

Definition app_host_git_unknown : AppHost :=
  sample_app_host host_commit_unknown None None
    (Ok (128%Z, "")) (Ok (0%Z, "fedcba9876543210" +:+ newline)) (Ok ()).

Definition app_host_broken : AppHost :=
  sample_app_host host_unset
    (Some (Raise "[Errno 13] Permission denied: 'commit.txt'"))
    (Some (Raise "[Errno 13] Permission denied")) no_git
    (Ok (0%Z, "fedcba9876543210" +:+ newline))
    (Raise "No module named 'psutil'").

(** * Properties *)

(** ** Arithmetic and exception plumbing *)

Lemma Qltb_lt (x y : Q) : Qltb x y = true <-> (x < y)%Q.
Proof. unfold Qltb, Qlt. apply Z.ltb_lt. Qed.

Lemma Qltb_ge (x y : Q) : Qltb x y = false <-> (y <= x)%Q.
Proof. unfold Qltb, Qle. apply Z.ltb_ge. Qed.

Lemma truediv_ok (a b : Z) :
  b <> 0%Z -> truediv a b = Ok (inject_Z a / inject_Z b)%Q.
Proof. intros Hb. unfold truediv. by destruct (Z.eqb_spec b 0). Qed.

Lemma truediv_zero (a : Z) : truediv a 0 = Raise "division by zero".
Proof. reflexivity. Qed.

Lemma status_eqb_up (b : bool) :
  String.eqb (if b then "UP" else "DOWN") "UP" = b.
Proof. by destruct b. Qed.

(** ** The try block of [health] *)

(** Both reads returned and the division went through. *)
Lemma health_try_ok (h : Host) (d : sdiskusage.t) (m : svmem.t) :
  disk_usage h = Ok d -> virtual_memory h = Ok m -> sdiskusage.total d <> 0%Z ->
  exists r, health_try h = Ok r /\ status_code r = 200%Z /\
    get_path ["status"] (body r) =
      Some (JStr (if String.eqb (disk_status_of d) "UP" &&
                     String.eqb (memory_status_of m) "UP"
                  then "UP" else "DOWN")) /\
    get_path ["components"; "diskSpace"; "status"] (body r) =
      Some (JStr (disk_status_of d)) /\
    get_path ["components"; "memory"; "status"] (body r) =
      Some (JStr (memory_status_of m)) /\
    get_path ["components"; "ping"; "status"] (body r) = Some (JStr "UP").
Proof.
  intros Hd Hm Ht. unfold health_try. rewrite Hd. cbn [mbind result_bind].
  rewrite (truediv_ok _ _ Ht). cbn [mbind result_bind]. rewrite Hm.
  cbn [mbind result_bind]. eexists. split; [reflexivity|].
  repeat split; reflexivity.
Qed.

(** A zero total makes the division raise, before memory is read. *)
Lemma health_try_zero_total (h : Host) (d : sdiskusage.t) :
  disk_usage h = Ok d -> sdiskusage.total d = 0%Z ->
  health_try h = Raise "division by zero".
Proof.
  intros Hd Ht. unfold health_try. rewrite Hd. cbn [mbind result_bind].
  by rewrite Ht.
Qed.

Lemma health_try_disk_raise (h : Host) (e : string) :
  disk_usage h = Raise e -> health_try h = Raise e.
Proof. intros Hd. unfold health_try. by rewrite Hd. Qed.

Lemma health_try_memory_raise (h : Host) (d : sdiskusage.t) (e : string) :
  disk_usage h = Ok d -> sdiskusage.total d <> 0%Z ->
  virtual_memory h = Raise e -> health_try h = Raise e.
Proof.
  intros Hd Ht Hm. unfold health_try. rewrite Hd. cbn [mbind result_bind].
  rewrite (truediv_ok _ _ Ht). cbn [mbind result_bind]. by rewrite Hm.
Qed.

(** The handler turns every exception of the try block into the 503 answer
    and lets every normal answer through. *)
Lemma health_of_try (self : FlaskActuator) (h : Host) :
  match health_try h with
  | Ok r => health self h = Ok r
  | Raise e => health self h = Ok (health_down e)
  end.
Proof. unfold health. by destruct (health_try h). Qed.

Lemma health_try_status_code (h : Host) (r : response) :
  health_try h = Ok r -> status_code r = 200%Z.
Proof.
  unfold health_try. destruct (disk_usage h) as [d|e]; [|done].
  cbn [mbind result_bind].
  destruct (truediv _ _) as [q|e]; [|done]. cbn [mbind result_bind].
  destruct (virtual_memory h) as [m|e]; [|done]. cbn [mbind result_bind].
  by intros [= <-].
Qed.


Lemma memory_status_up (m : svmem.t) :
  memory_status_of m = "UP" <-> (svmem.percent m < 90)%Q.
Proof.
  unfold memory_status_of.
  destruct (Qltb (svmem.percent m) 90) eqn:E.
  - apply Qltb_lt in E. by split.
  - apply Qltb_ge in E. split; [done | intros H; lra].
Qed.

Lemma status_is_up_or_down (b : bool) :
  (if b then "UP" else "DOWN") = "UP" \/ (if b then "UP" else "DOWN") = "DOWN".
Proof. destruct b; auto. Qed.

(** ** Health classification *)

(** At the thresholds themselves both checks are DOWN; one step past them
    both are UP. *)
Example health_at_thresholds :
  exists r, health actuator0 host_at_thresholds = Ok r /\
    get_path ["components"; "diskSpace"; "status"] (body r) = Some (JStr "DOWN") /\
    get_path ["components"; "memory"; "status"] (body r) = Some (JStr "DOWN") /\
    get_path ["status"] (body r) = Some (JStr "DOWN") /\
    get_path ["components"; "diskSpace"; "details"; "threshold"] (body r) =
      Some (JNum (1000 # 10)) /\
    status_code r = 200%Z.
Proof. eexists. repeat split; reflexivity. Qed.

Example health_past_thresholds :
  exists r, health actuator0 host_past_thresholds = Ok r /\
    get_path ["components"; "diskSpace"; "status"] (body r) = Some (JStr "UP") /\
    get_path ["components"; "memory"; "status"] (body r) = Some (JStr "UP") /\
    get_path ["status"] (body r) = Some (JStr "UP").
Proof. eexists. repeat split; reflexivity. Qed.

(** Binary64 agrees with the rational reading on these disks. *)
Example disk_status64_agrees :
  Forall (fun d => disk_status64 d = disk_status_of d)
    [ disk_half; disk_low; disk_tenth; disk_above_tenth;
      sdiskusage.mk 10 9 1 90; sdiskusage.mk 30 27 3 90;
      sdiskusage.mk 70 63 7 90; sdiskusage.mk 4000000000000 0 400000000001 90 ].
Proof. repeat constructor. Qed.



(** C2, as the code has it. With total = 1000 and free = 50 reported for the
    root filesystem and a memory read that returns, [health] answers with
    overall status "DOWN" and disk status "DOWN", and the HTTP status code
    is 200: only the exception path answers 503. *)
Theorem health_low_disk_down_200
    (self : FlaskActuator) (h : Host) (d : sdiskusage.t) (m : svmem.t) :
  disk_usage h = Ok d -> virtual_memory h = Ok m ->
  sdiskusage.total d = 1000%Z -> sdiskusage.free d = 50%Z ->
  exists r, health self h = Ok r /\
    get_path ["status"] (body r) = Some (JStr "DOWN") /\
    get_path ["components"; "diskSpace"; "status"] (body r) = Some (JStr "DOWN") /\
    status_code r = 200%Z.
Proof.
  intros Hd Hm Ht Hf.
  assert (sdiskusage.total d <> 0%Z) as Hnz by lia.
  destruct (health_try_ok h d m Hd Hm Hnz) as (r & Hr & Hc & Hs & Hds & _).
  pose proof (health_of_try self h) as Hh. rewrite Hr in Hh.
  exists r. split; [done|]. rewrite Hs, Hds.
  assert (disk_status_of d = "DOWN") as ->.
  { unfold disk_status_of, free_ratio. by rewrite Ht, Hf. }
  done.
Qed.

Lemma health_low_disk_down_200_witness :
  exists r, health actuator0 host_low_disk = Ok r /\
    get_path ["status"] (body r) = Some (JStr "DOWN") /\
    get_path ["components"; "diskSpace"; "status"] (body r) = Some (JStr "DOWN") /\
    status_code r = 200%Z.
Proof.
  apply (health_low_disk_down_200 actuator0 host_low_disk disk_low mem_half);
    reflexivity.
Defined.

(** C2, as the spec words it, fails at the very input it names: the answer
    to a 5%-free disk does not carry status code 503. *)
Lemma health_low_disk_not_503 :
  disk_usage host_low_disk = Ok disk_low /\
  sdiskusage.total disk_low = 1000%Z /\ sdiskusage.free disk_low = 50%Z /\
  virtual_memory host_low_disk = Ok mem_half /\
  ~ (exists r, health actuator0 host_low_disk = Ok r /\
       get_path ["status"] (body r) = Some (JStr "DOWN") /\
       get_path ["components"; "diskSpace"; "status"] (body r) =
         Some (JStr "DOWN") /\
       status_code r = 503%Z).
Proof.
  repeat (split; [reflexivity|]).
  intros (r & Hr & _ & _ & Hc).
  vm_compute in Hr. injection Hr as <-. discriminate Hc.
Qed.

(** C8, as the code has it. Every answer of [health] carries 200 or 503, and
    503 exactly when the try block raised. When both reads return and the
    reported total is not zero the try block does not raise, so the code is
    200 whatever the thresholds say. *)
Theorem health_code_200_unless_raise
    (self : FlaskActuator) (h : Host) (r : response) :
  health self h = Ok r ->
  (status_code r = 503%Z <-> exists e, health_try h = Raise e) /\
  (status_code r = 200%Z \/ status_code r = 503%Z) /\
  (forall d m, disk_usage h = Ok d -> virtual_memory h = Ok m ->
     sdiskusage.total d <> 0%Z -> status_code r = 200%Z).
Proof.
  intros Hr. pose proof (health_of_try self h) as Hh.
  destruct (health_try h) as [r'|e] eqn:Ht.
  - assert (r' = r) as -> by congruence.
    pose proof (health_try_status_code h r Ht) as Hc.
    split; [|split; [by left | done]].
    split; [rewrite Hc; discriminate | intros [e [=]]].
  - assert (r = health_down e) as -> by congruence.
    split; [|split; [by right |]].
    + split; [eauto | reflexivity].
    + intros d m Hd Hm Hnz.
      destruct (health_try_ok h d m Hd Hm Hnz) as (r' & Hr' & _). congruence.
Qed.

Lemma health_code_200_unless_raise_witness :
  exists r, health actuator0 host_low_disk = Ok r /\
    get_path ["status"] (body r) = Some (JStr "DOWN") /\
    status_code r = 200%Z.
Proof.
  eexists. split; [reflexivity|]. split; [reflexivity|].
  eapply (health_code_200_unless_raise actuator0 host_low_disk);
    [reflexivity | reflexivity | reflexivity | discriminate].
Defined.

(** C8, as the spec words it, fails for a root filesystem that reports a
    total of zero: both reads return, the division raises, and the answer
    carries 503. *)
Lemma health_zero_total_503 :
  disk_usage host_zero_total = Ok disk_empty /\
  virtual_memory host_zero_total = Ok mem_half /\
  health actuator0 host_zero_total = Ok (health_down "division by zero") /\
  ~ (exists r, health actuator0 host_zero_total = Ok r /\ status_code r = 200%Z).
Proof.
  repeat (split; [reflexivity|]).
  intros (r & Hr & Hc). vm_compute in Hr. injection Hr as <-. discriminate Hc.
Qed.

(** ** The try block of [metrics] *)

Lemma metrics_of_try (self : FlaskActuator) (h : Host) :
  match metrics_try self h with
  | Ok r => metrics self h = Ok r
  | Raise e => metrics self h = Ok (metrics_error e)
  end.
Proof. unfold metrics. by destruct (metrics_try self h). Qed.

(** A normal answer of the try block: the three reads returned, the total is
    not zero, and the payload is the one the source spells out. *)
Lemma metrics_try_inv (self : FlaskActuator) (h : Host) (r : response) :
  metrics_try self h = Ok r ->
  exists (c : Q) (m : svmem.t) (d : sdiskusage.t),
    cpu_percent h = Ok c /\ virtual_memory h = Ok m /\ disk_usage h = Ok d /\
    sdiskusage.total d <> 0%Z /\ status_code r = 200%Z /\
    body r = JObj {[
      "names" := JArr (JStr <$> metric_names);
      "measurements" := JObj {[
        "system.cpu.usage" := measurement (JNum c);
        "system.memory.usage" := measurement (JNum (svmem.percent m));
        "system.memory.total" := measurement (JInt (svmem.total m));
        "system.disk.usage" :=
          measurement
            (JNum (inject_Z (sdiskusage.used d) / inject_Z (sdiskusage.total d)
                   * 100)%Q);
        "system.disk.total" := measurement (JInt (sdiskusage.total d));
        "process.uptime" :=
          measurement (JNum (time_time h - start_time self)%Q) ]} ]}.
Proof.
  unfold metrics_try.
  destruct (cpu_percent h) as [c|e]; [|done]. cbn [mbind result_bind].
  destruct (virtual_memory h) as [m|e]; [|done]. cbn [mbind result_bind].
  destruct (disk_usage h) as [d|e]; [|done]. cbn [mbind result_bind].
  unfold truediv. destruct (Z.eqb_spec (sdiskusage.total d) 0) as [Hz|Hnz]; [done|].
  cbn [mbind result_bind]. intros [= <-]. by exists c, m, d.
Qed.

Lemma metrics_success (self : FlaskActuator) (h : Host) (r : response) :
  metrics self h = Ok r -> status_code r = 200%Z -> metrics_try self h = Ok r.
Proof.
  intros Hr Hc. pose proof (metrics_of_try self h) as Hm.
  destruct (metrics_try self h) as [r'|e]; [congruence|].
  assert (r = metrics_error e) as -> by congruence. discriminate Hc.
Qed.

Lemma metrics_try_cpu_raise (self : FlaskActuator) (h : Host) (e : string) :
  cpu_percent h = Raise e -> metrics_try self h = Raise e.
Proof. intros Hc. unfold metrics_try. by rewrite Hc. Qed.

Lemma metrics_try_memory_raise (self : FlaskActuator) (h : Host) (c : Q) (e : string) :
  cpu_percent h = Ok c -> virtual_memory h = Raise e ->
  metrics_try self h = Raise e.
Proof. intros Hc Hm. unfold metrics_try. by rewrite Hc, Hm. Qed.

Lemma metrics_try_disk_raise
    (self : FlaskActuator) (h : Host) (c : Q) (m : svmem.t) (e : string) :
  cpu_percent h = Ok c -> virtual_memory h = Ok m -> disk_usage h = Raise e ->
  metrics_try self h = Raise e.
Proof. intros Hc Hm Hd. unfold metrics_try. by rewrite Hc, Hm, Hd. Qed.

(** ** Read errors *)

(** C3. When a read of the host raises, [health] answers (it does not raise)
    with status "DOWN", a details object holding the message of the
    exception its try block raised, and code 503; [metrics] answers with a
    bare error payload holding that message and code 500. The message is
    that of the first read, in the order the handler performs them, that
    raises. *)
Theorem read_errors_are_answered (self : FlaskActuator) (h : Host) :
  ((exists e, disk_usage h = Raise e) \/ (exists e, virtual_memory h = Raise e) ->
     exists e, health_try h = Raise e /\
       health self h =
         Ok {| body := JObj {[ "status" := JStr "DOWN";
                               "details" := JObj {[ "error" := JStr e ]} ]};
               status_code := 503 |}) /\
  (forall e, disk_usage h = Raise e -> health self h = Ok (health_down e)) /\
  (forall d e, disk_usage h = Ok d -> sdiskusage.total d <> 0%Z ->
     virtual_memory h = Raise e -> health self h = Ok (health_down e)) /\
  ((exists e, cpu_percent h = Raise e) \/ (exists e, virtual_memory h = Raise e) \/
   (exists e, disk_usage h = Raise e) ->
     exists e, metrics_try self h = Raise e /\
       metrics self h =
         Ok {| body := JObj {[ "error" := JStr e ]}; status_code := 500 |}) /\
  (forall e, cpu_percent h = Raise e -> metrics self h = Ok (metrics_error e)) /\
  (forall c e, cpu_percent h = Ok c -> virtual_memory h = Raise e ->
     metrics self h = Ok (metrics_error e)) /\
  (forall c m e, cpu_percent h = Ok c -> virtual_memory h = Ok m ->
     disk_usage h = Raise e -> metrics self h = Ok (metrics_error e)).
Proof.
  pose proof (health_of_try self h) as Hh.
  pose proof (metrics_of_try self h) as Hm.
  split; [|split; [|split; [|split; [|split; [|split]]]]].
  - intros Hraise.
    assert (exists e, health_try h = Raise e) as [e He].
    { destruct (disk_usage h) as [d|e] eqn:Hd.
      - destruct Hraise as [[e [=]]|[e Hme]].
        destruct (Z.eq_dec (sdiskusage.total d) 0%Z) as [Hz|Hnz].
        + eauto using health_try_zero_total.
        + eauto using health_try_memory_raise.
      - eauto using health_try_disk_raise. }
    exists e. split; [done|]. by rewrite He in Hh.
  - intros e Hd. by rewrite (health_try_disk_raise h e Hd) in Hh.
  - intros d e Hd Hnz Hme.
    by rewrite (health_try_memory_raise h d e Hd Hnz Hme) in Hh.
  - intros Hraise.
    assert (exists e, metrics_try self h = Raise e) as [e He].
    { destruct (cpu_percent h) as [c|e] eqn:Hc;
        [|eauto using metrics_try_cpu_raise].
      destruct (virtual_memory h) as [m|e] eqn:Hme;
        [|eauto using metrics_try_memory_raise].
      destruct (disk_usage h) as [d|e] eqn:Hd;
        [|eauto using metrics_try_disk_raise].
      destruct Hraise as [[e [=]]|[[e [=]]|[e [=]]]]. }
    exists e. split; [done|]. by rewrite He in Hm.
  - intros e Hc. by rewrite (metrics_try_cpu_raise self h e Hc) in Hm.
  - intros c e Hc Hme.
    by rewrite (metrics_try_memory_raise self h c e Hc Hme) in Hm.
  - intros c m e Hc Hme Hd.
    by rewrite (metrics_try_disk_raise self h c m e Hc Hme Hd) in Hm.
Qed.

Lemma read_errors_are_answered_witness :
  health actuator0 host_disk_error =
    Ok (health_down "[Errno 13] Permission denied: '/'") /\
  metrics actuator0 host_disk_error =
    Ok (metrics_error "[Errno 13] Permission denied: '/'").
Proof.
  destruct (read_errors_are_answered actuator0 host_disk_error)
    as (_ & Hh & _ & _ & _ & _ & Hm).
  split; [by apply Hh | by apply (Hm (1 # 1)%Q mem_half)].
Defined.

(** ** Shape of the metrics payload *)

(** C9. In every successful answer of [metrics] the names sequence is the
    six metric names in their fixed order, the keys of the measurements
    mapping are exactly those six names, and every measurement carries the
    statistic kind "VALUE". *)
Theorem metrics_names_and_measurements
    (self : FlaskActuator) (h : Host) (r : response) :
  metrics self h = Ok r -> status_code r = 200%Z ->
  get_path ["names"] (body r) =
    Some (JArr [ JStr "system.cpu.usage"; JStr "system.memory.usage";
                 JStr "system.memory.total"; JStr "system.disk.usage";
                 JStr "system.disk.total"; JStr "process.uptime" ]) /\
  exists ms : gmap string json,
    get_path ["measurements"] (body r) = Some (JObj ms) /\
    dom ms = list_to_set metric_names /\
    forall k v, ms !! k = Some v ->
      get_path ["statistic"] v = Some (JStr "VALUE").
Proof.
  intros Hr Hc. apply metrics_success in Hr; [|done].
  destruct (metrics_try_inv self h r Hr) as (c & m & d & _ & _ & _ & _ & _ & Hb).
  rewrite Hb. split; [reflexivity|]. eexists. split; [reflexivity|].
  split; [reflexivity|].
  intros k v Hkv.
  assert (k ∈ metric_names) as Hk.
  { apply (elem_of_list_to_set (C := gset string)).
    change (list_to_set metric_names) with
      (dom ({[ "system.cpu.usage" := measurement (JNum c);
               "system.memory.usage" := measurement (JNum (svmem.percent m));
               "system.memory.total" := measurement (JInt (svmem.total m));
               "system.disk.usage" :=
                 measurement
                   (JNum (inject_Z (sdiskusage.used d) /
                          inject_Z (sdiskusage.total d) * 100)%Q);
               "system.disk.total" := measurement (JInt (sdiskusage.total d));
               "process.uptime" :=
                 measurement (JNum (time_time h - start_time self)%Q) ]}
            : gmap string json)).
    apply elem_of_dom. eauto. }
  unfold metric_names in Hk.
  repeat (apply elem_of_cons in Hk as [->|Hk];
          [vm_compute in Hkv; by injection Hkv as <- |]).
  by apply elem_of_nil in Hk.
Qed.

Lemma metrics_names_and_measurements_witness :
  exists r, metrics actuator0 host_healthy = Ok r /\ status_code r = 200%Z /\
    get_path ["names"] (body r) = Some (JArr (JStr <$> metric_names)).
Proof.
  eexists. split; [reflexivity|]. split; [reflexivity|].
  apply (proj1 (metrics_names_and_measurements actuator0 host_healthy _
                  eq_refl eq_refl)).
Defined.

(** ** Uptime *)

Lemma int_of_float_mono (x y : Q) :
  (x <= y)%Q -> (int_of_float x <= int_of_float y)%Z.
Proof.
  unfold Qle, int_of_float. intros Hxy.
  assert (0 < QDen x)%Z as Hx by done.
  assert (0 < QDen y)%Z as Hy by done.
  rewrite <- (Z.quot_mul_cancel_r (Qnum x) (QDen x) (QDen y)) by lia.
  rewrite <- (Z.quot_mul_cancel_r (Qnum y) (QDen y) (QDen x)) by lia.
  rewrite (Z.mul_comm (QDen y) (QDen x)).
  apply Z.quot_le_mono; lia.
Qed.

Lemma append_unit_inj (s1 s2 : string) (c : ascii) :
  s1 +:+ String c "" = s2 +:+ String c "" -> s1 = s2.
Proof.
  revert s2. induction s1 as [|a s1 IH]; intros [|b s2]; cbn; intros H.
  - done.
  - injection H as -> H. by destruct s2.
  - injection H as -> H. by destruct s1.
  - injection H as -> H. f_equal. by apply IH.
Qed.

(** The number in the uptime text of [info] is determined by the text. *)
Lemma uptime_text_inj (n1 n2 : Z) :
  str_of_int n1 +:+ "s" = str_of_int n2 +:+ "s" -> n1 = n2.
Proof.
  intros H. apply append_unit_inj in H. by apply (inj pretty) in H.
Qed.

Lemma info_uptime_field (self : FlaskActuator) (h : Host) :
  get_path ["app"; "uptime"] (body (info self h)) =
    Some (JStr (str_of_int (uptime_seconds self h) +:+ "s")).
Proof. reflexivity. Qed.

(** C7. With a fixed start time and clock readings t1 <= t2, the whole
    seconds in the uptime text of [info] at t2 are at least those at t1, and
    the uptime value of a successful [metrics] at t2 is at least the one at
    t1. *)
Theorem uptime_is_monotone (self : FlaskActuator) (h1 h2 : Host) :
  (time_time h1 <= time_time h2)%Q ->
  (get_path ["app"; "uptime"] (body (info self h1)) =
     Some (JStr (str_of_int (uptime_seconds self h1) +:+ "s")) /\
   get_path ["app"; "uptime"] (body (info self h2)) =
     Some (JStr (str_of_int (uptime_seconds self h2) +:+ "s")) /\
   (uptime_seconds self h1 <= uptime_seconds self h2)%Z) /\
  (forall r1 r2,
     metrics self h1 = Ok r1 -> status_code r1 = 200%Z ->
     metrics self h2 = Ok r2 -> status_code r2 = 200%Z ->
     get_path ["measurements"; "process.uptime"; "value"] (body r1) =
       Some (JNum (uptime self h1)) /\
     get_path ["measurements"; "process.uptime"; "value"] (body r2) =
       Some (JNum (uptime self h2)) /\
     (uptime self h1 <= uptime self h2)%Q).
Proof.
  intros Ht.
  assert (uptime self h1 <= uptime self h2)%Q as Hu by (unfold uptime; lra).
  split.
  - split; [apply info_uptime_field|]. split; [apply info_uptime_field|].
    by apply int_of_float_mono.
  - intros r1 r2 Hr1 Hc1 Hr2 Hc2.
    apply metrics_success in Hr1; [|done]. apply metrics_success in Hr2; [|done].
    destruct (metrics_try_inv self h1 r1 Hr1) as (? & ? & ? & _ & _ & _ & _ & _ & ->).
    destruct (metrics_try_inv self h2 r2 Hr2) as (? & ? & ? & _ & _ & _ & _ & _ & ->).
    split; [reflexivity|]. split; [reflexivity|]. done.
Qed.

Lemma uptime_is_monotone_witness :
  (time_time host_healthy <= time_time host_later)%Q /\
  get_path ["app"; "uptime"] (body (info actuator0 host_healthy)) =
    Some (JStr "5s") /\
  get_path ["app"; "uptime"] (body (info actuator0 host_later)) =
    Some (JStr "42s") /\
  (uptime_seconds actuator0 host_healthy <= uptime_seconds actuator0 host_later)%Z.
Proof.
  assert (time_time host_healthy <= time_time host_later)%Q as Ht
    by (vm_compute; discriminate).
  split; [exact Ht|]. split; [reflexivity|]. split; [reflexivity|].
  apply (uptime_is_monotone actuator0 host_healthy host_later Ht).
Defined.

(** ** Substring search and letter case *)

Lemma append_nil (s : string) : "" +:+ s = s.
Proof. reflexivity. Qed.

Lemma append_cons (c : ascii) (a b : string) :
  String c a +:+ b = String c (a +:+ b).
Proof. reflexivity. Qed.

Lemma lower_app (a b : string) : lower (a +:+ b) = lower a +:+ lower b.
Proof.
  induction a as [|c a IH]; [done|].
  rewrite append_cons. cbn [lower]. by rewrite append_cons, IH.
Qed.

Lemma lower_app_inv (s x y : string) :
  lower s = x +:+ y ->
  exists s1 s2, s = s1 +:+ s2 /\ lower s1 = x /\ lower s2 = y.
Proof.
  revert s. induction x as [|c x IH]; intros s H.
  - by exists "", s.
  - destruct s as [|c' s]; [done|].
    rewrite append_cons in H. cbn [lower] in H. injection H as Hc H.
    destruct (IH s H) as (s1 & s2 & -> & <- & <-).
    exists (String c' s1), s2. rewrite append_cons. cbn [lower]. by rewrite Hc.
Qed.

Lemma startswith_spec (sub s : string) :
  startswith sub s = true <-> exists b, s = sub +:+ b.
Proof.
  revert s. induction sub as [|c sub IH]; intros s; cbn [startswith].
  - split; [intros _; by exists s | done].
  - destruct s as [|c' s].
    + split; [done | by intros [b [=]]].
    + rewrite andb_true_iff, IH. split.
      * intros [Hc [b ->]]. apply Ascii.eqb_eq in Hc as ->. by exists b.
      * intros [b H]. rewrite append_cons in H. injection H as -> ->.
        split; [apply Ascii.eqb_refl | by exists b].
Qed.

Lemma contains_spec (sub s : string) :
  contains sub s = true <-> exists a b, s = a +:+ sub +:+ b.
Proof.
  induction s as [|c s IH]; cbn [contains];
    rewrite orb_true_iff, startswith_spec.
  - split.
    + intros [[b ->]|]; [by exists "", b | done].
    + intros (a & b & H). left. exists b.
      destruct a; [done | discriminate H].
  - rewrite IH. split.
    + intros [[b ->]|(a & b & ->)]; [by exists "", b | by exists (String c a), b].
    + intros (a & b & H). destruct a as [|c' a].
      * left. by exists b.
      * rewrite append_cons in H. injection H as -> ->. right. by exists a, b.
Qed.

Lemma denylist_is_lower (sub : string) : In sub denylist -> lower sub = sub.
Proof.
  unfold denylist. cbn.
  intros [<-|[<-|[<-|[<-|[<-|[<-|[]]]]]]]; reflexivity.
Qed.

(** The test of the source is containment up to letter case. *)
Lemma contains_lower_ci (name sub : string) :
  lower sub = sub ->
  contains sub (lower name) = true <-> contains_ci name sub.
Proof.
  intros Hsub. rewrite contains_spec. unfold contains_ci. split.
  - intros (a' & b' & H).
    destruct (lower_app_inv _ _ _ H) as (a & rest & -> & _ & Hrest).
    destruct (lower_app_inv _ _ _ Hrest) as (w & b & -> & Hw & _).
    exists a, w, b. by rewrite Hw, Hsub.
  - intros (a & w & b & -> & Hw).
    exists (lower a), (lower b). rewrite !lower_app, Hw. by rewrite Hsub.
Qed.

Lemma is_sensitive_spec (name : string) :
  is_sensitive name = true <-> sensitive_name name.
Proof.
  unfold is_sensitive, sensitive_name. rewrite existsb_exists.
  split; intros (sub & Hin & H); exists sub; (split; [done|]);
    by apply (contains_lower_ci name sub (denylist_is_lower sub Hin)).
Qed.

(** ** Redaction in [env] *)

(** The match is on any slice of the name, so names that merely embed a
    denylisted word are redacted too; values play no part. *)
Example is_sensitive_samples :
  map is_sensitive
    [ "API_KEY"; "Db_Password"; "GITHUB_TOKEN"; "MONKEY"; "AUTHOR";
      "PATH"; "HOME"; "ENVIRONMENT"; "" ] =
    [ true; true; true; true; true; false; false; false; false ].
Proof. reflexivity. Qed.

Lemma safe_env_vars_lookup (h : Host) (k : string) :
  safe_env_vars h !! k = if is_sensitive k then None else environ h !! k.
Proof.
  unfold safe_env_vars. destruct (is_sensitive k) eqn:E.
  - apply map_lookup_filter_None_2. right. intros v _ Hf.
    change (is_sensitive k = false) in Hf. congruence.
  - destruct (environ h !! k) as [v|] eqn:Hk.
    + by apply map_lookup_filter_Some_2.
    + apply map_lookup_filter_None_2. by left.
Qed.



(** ** Defaults and consistency of [info] *)

Lemma getenv_unset (h : Host) (key default : string) :
  environ h !! key = None -> getenv h key default = default.
Proof. intros H. unfold getenv. by rewrite H. Qed.

Lemma getenv_set (h : Host) (key default v : string) :
  environ h !! key = Some v -> getenv h key default = v.
Proof. intros H. unfold getenv. by rewrite H. Qed.

(** The payload of [info], field by field. *)
Lemma info_fields (self : FlaskActuator) (h : Host) :
  let j := body (info self h) in
  get_path ["app"; "name"] j = Some (JStr (getenv h "APP_NAME" "flask-web")) /\
  get_path ["app"; "version"] j = Some (JStr (getenv h "APP_VERSION" "1.0.0")) /\
  get_path ["build"; "version"] j = Some (JStr (getenv h "APP_VERSION" "1.0.0")) /\
  get_path ["build"; "artifact"] j = Some (JStr (getenv h "APP_NAME" "flask-web")) /\
  get_path ["build"; "name"] j = Some (JStr (getenv h "APP_NAME" "flask-web")) /\
  get_path ["build"; "time"] j =
    Some (JStr (getenv h "BUILD_TIME" (datetime_now_isoformat h))) /\
  get_path ["git"; "branch"] j = Some (JStr (getenv h "GIT_BRANCH" "unknown")) /\
  get_path ["git"; "commit"; "id"] j =
    Some (JStr (getenv h "GIT_COMMIT_HASH" "unknown")) /\
  get_path ["git"; "commit"; "time"] j =
    Some (JStr (getenv h "GIT_COMMIT_TIME" "unknown")) /\
  get_path ["environment"] j = Some (JStr (getenv h "ENVIRONMENT" "development")).
Proof. repeat split; reflexivity. Qed.

(** C5. When none of the configuration variables is set, [info] answers
    with code 200 and every optional field holds its documented default:
    name "flask-web", version "1.0.0", branch, commit id and commit time
    "unknown", environment "development", and as build time the timestamp
    taken during the call. *)
Theorem info_defaults_when_unset (self : FlaskActuator) (h : Host) :
  Forall (fun k => environ h !! k = None) info_config_vars ->
  let j := body (info self h) in
  status_code (info self h) = 200%Z /\
  get_path ["app"; "name"] j = Some (JStr "flask-web") /\
  get_path ["build"; "name"] j = Some (JStr "flask-web") /\
  get_path ["build"; "artifact"] j = Some (JStr "flask-web") /\
  get_path ["app"; "version"] j = Some (JStr "1.0.0") /\
  get_path ["build"; "version"] j = Some (JStr "1.0.0") /\
  get_path ["git"; "branch"] j = Some (JStr "unknown") /\
  get_path ["git"; "commit"; "id"] j = Some (JStr "unknown") /\
  get_path ["git"; "commit"; "time"] j = Some (JStr "unknown") /\
  get_path ["environment"] j = Some (JStr "development") /\
  get_path ["build"; "time"] j = Some (JStr (datetime_now_isoformat h)).
Proof.
  unfold info_config_vars. intros H.
  repeat (apply Forall_cons in H as [? H]).
  destruct (info_fields self h)
    as (F1 & F2 & F3 & F4 & F5 & F6 & F7 & F8 & F9 & F10).
  cbv zeta. rewrite F1, F2, F3, F4, F5, F6, F7, F8, F9, F10.
  rewrite !getenv_unset by done. repeat split; reflexivity.
Qed.

Lemma info_defaults_when_unset_witness :
  get_path ["app"; "name"] (body (info actuator0 host_unset)) =
    Some (JStr "flask-web") /\
  get_path ["build"; "time"] (body (info actuator0 host_unset)) =
    Some (JStr "2024-05-01T12:00:00.000000").
Proof.
  assert (Forall (fun k => environ host_unset !! k = None) info_config_vars)
    as H by (repeat constructor).
  pose proof (info_defaults_when_unset actuator0 host_unset H) as Hd.
  cbv zeta in Hd. destruct Hd as (_ & Hn & _ & _ & _ & _ & _ & _ & _ & _ & Ht).
  split; [exact Hn | exact Ht].
Defined.

(** C10. In every environment the [info] payload agrees with itself: the app
    name, the build artifact and the build name are one string, the value
    of APP_NAME or its default, and the app version and the build version
    are one string, the value of APP_VERSION or its default. *)
Theorem info_name_version_consistent (self : FlaskActuator) (h : Host) :
  let j := body (info self h) in
  exists name version : string,
    name = getenv h "APP_NAME" "flask-web" /\
    version = getenv h "APP_VERSION" "1.0.0" /\
    get_path ["app"; "name"] j = Some (JStr name) /\
    get_path ["build"; "artifact"] j = Some (JStr name) /\
    get_path ["build"; "name"] j = Some (JStr name) /\
    get_path ["app"; "version"] j = Some (JStr version) /\
    get_path ["build"; "version"] j = Some (JStr version).
Proof.
  exists (getenv h "APP_NAME" "flask-web"), (getenv h "APP_VERSION" "1.0.0").
  repeat split; reflexivity.
Qed.

(** ** Repeated calls *)

(** Overwriting at one path leaves what is read along a parting path. *)
Lemma get_set_path_diverge (p q : list string) (v j : json) :
  diverge p q -> get_path q (set_path p v j) = get_path q j.
Proof.
  revert q j. induction p as [|k p IH]; intros [|k' q] j; cbn; try done.
  intros Hd. destruct j as [| | | | | |m]; try done.
  destruct (decide (k = k')) as [->|Hne].
  - destruct Hd as [?|Hd]; [done|]. rewrite lookup_alter_eq.
    destruct (m !! k'); cbn; [by apply IH | done].
  - by rewrite lookup_alter_ne.
Qed.

Lemma erase_clock_fields_keeps (h : Host) (j : json) (q : list string) :
  diverge ["app"; "uptime"] q -> diverge ["build"; "time"] q ->
  get_path q (erase_clock_fields h j) = get_path q j.
Proof.
  intros Hu Hb. unfold erase_clock_fields.
  destruct (environ h !! "BUILD_TIME");
    by rewrite ?(get_set_path_diverge ["build"; "time"]) by done;
       rewrite (get_set_path_diverge ["app"; "uptime"]) by done.
Qed.

Lemma info_erased_eq (self : FlaskActuator) (h1 h2 : Host) :
  environ h1 = environ h2 -> platform h1 = platform h2 ->
  erase_clock_fields h1 (body (info self h1)) =
  erase_clock_fields h2 (body (info self h2)).
Proof.
  intros He Hp. unfold erase_clock_fields, info, getenv.
  rewrite <- He, <- Hp.
  destruct (environ h1 !! "BUILD_TIME"); reflexivity.
Qed.

(** C6. Two calls made with the same environment (and in the same
    interpreter on the same platform) give [info] payloads that are equal
    once the uptime and, if BUILD_TIME is not set, the build time are
    blanked; every field off those two paths reads the same in both, and so
    does the build time when BUILD_TIME is set. The [configprops] answers
    of the two calls are equal outright. *)
Theorem info_configprops_repeatable (self : FlaskActuator) (h1 h2 : Host) :
  environ h1 = environ h2 -> platform h1 = platform h2 ->
  status_code (info self h1) = status_code (info self h2) /\
  erase_clock_fields h1 (body (info self h1)) =
    erase_clock_fields h2 (body (info self h2)) /\
  (forall q, diverge ["app"; "uptime"] q -> diverge ["build"; "time"] q ->
     get_path q (body (info self h1)) = get_path q (body (info self h2))) /\
  (is_Some (environ h1 !! "BUILD_TIME") ->
     get_path ["build"; "time"] (body (info self h1)) =
     get_path ["build"; "time"] (body (info self h2))) /\
  configprops self h1 = configprops self h2.
Proof.
  intros He Hp. pose proof (info_erased_eq self h1 h2 He Hp) as Heq.
  split; [reflexivity|]. split; [exact Heq|]. split; [|split].
  - intros q Hu Hb.
    rewrite <- (erase_clock_fields_keeps h1 _ q Hu Hb), Heq.
    by apply erase_clock_fields_keeps.
  - intros [v Hv].
    destruct (info_fields self h1) as (_ & _ & _ & _ & _ & F1 & _).
    destruct (info_fields self h2) as (_ & _ & _ & _ & _ & F2 & _).
    cbv zeta in F1, F2. rewrite F1, F2.
    rewrite (getenv_set h1 _ _ v Hv). rewrite He in Hv.
    by rewrite (getenv_set h2 _ _ v Hv).
  - unfold configprops, getenv. by rewrite He.
Qed.

Lemma info_configprops_repeatable_witness :
  environ host_healthy = environ host_later /\
  platform host_healthy = platform host_later /\
  get_path ["app"; "name"] (body (info actuator0 host_healthy)) =
    get_path ["app"; "name"] (body (info actuator0 host_later)) /\
  configprops actuator0 host_healthy = configprops actuator0 host_later.
Proof.
  split; [reflexivity|]. split; [reflexivity|].
  destruct (info_configprops_repeatable actuator0 host_healthy host_later
              eq_refl eq_refl) as (_ & _ & Hq & _ & Hc).
  split; [|exact Hc].
  apply Hq; cbn; [by right; left | by left].
Defined.

(** * Further properties of the actuator *)

(** ** When [health] and [metrics] answer 200 *)

Lemma health_try_inv (h : Host) (r : response) :
  health_try h = Ok r ->
  exists d m, disk_usage h = Ok d /\ virtual_memory h = Ok m /\
    sdiskusage.total d <> 0%Z.
Proof.
  unfold health_try. destruct (disk_usage h) as [d|e]; [|done].
  cbn [mbind result_bind]. unfold truediv.
  destruct (Z.eqb_spec (sdiskusage.total d) 0) as [Hz|Hnz]; [done|].
  cbn [mbind result_bind].
  destruct (virtual_memory h) as [m|e]; [|done]. intros _. by exists d, m.
Qed.

Lemma health_200_inv (self : FlaskActuator) (h : Host) (r : response) :
  health self h = Ok r -> status_code r = 200%Z ->
  exists d m, disk_usage h = Ok d /\ virtual_memory h = Ok m /\
    sdiskusage.total d <> 0%Z /\ health_try h = Ok r.
Proof.
  intros Hr Hc. pose proof (health_of_try self h) as Hh.
  destruct (health_try h) as [r'|e] eqn:Ht.
  - assert (r' = r) as -> by congruence.
    destruct (health_try_inv h r Ht) as (d & m & ? & ? & ?). by exists d, m.
  - assert (r = health_down e) as -> by congruence. discriminate Hc.
Qed.

(** [health] answers 200 exactly when the disk read returns a non-zero
    total and the memory read returns; in every other case it answers 503. *)
Theorem health_200_iff_reads_return
    (self : FlaskActuator) (h : Host) (r : response) :
  health self h = Ok r ->
  (status_code r = 200%Z <->
     exists d m, disk_usage h = Ok d /\ virtual_memory h = Ok m /\
       sdiskusage.total d <> 0%Z) /\
  (status_code r <> 200%Z -> status_code r = 503%Z).
Proof.
  intros Hr. pose proof (health_of_try self h) as Hh.
  destruct (health_try h) as [r'|e] eqn:Ht.
  - assert (r' = r) as -> by congruence.
    pose proof (health_try_status_code h r Ht) as Hc.
    split; [|by rewrite Hc]. split; [intros _; by eapply health_try_inv | done].
  - assert (r = health_down e) as -> by congruence.
    split; [|done]. split; [done|].
    intros (d & m & Hd & Hm & Hnz).
    destruct (health_try_ok h d m Hd Hm Hnz) as (r' & Hr' & _). congruence.
Qed.

Lemma health_200_iff_reads_return_witness :
  exists r, health actuator0 host_healthy = Ok r /\ status_code r = 200%Z.
Proof.
  eexists. split; [reflexivity|].
  apply (health_200_iff_reads_return actuator0 host_healthy _ eq_refl).
  exists disk_half, mem_half. repeat split; [reflexivity.. | discriminate].
Defined.

(** [metrics] answers 200 exactly when its three reads return and the disk
    total is not zero; otherwise it answers 500, and on a zero total with all
    reads returning the error it reports is the division's. *)
Theorem metrics_200_iff_reads_return
    (self : FlaskActuator) (h : Host) (r : response) :
  metrics self h = Ok r ->
  (status_code r = 200%Z <->
     exists c m d, cpu_percent h = Ok c /\ virtual_memory h = Ok m /\
       disk_usage h = Ok d /\ sdiskusage.total d <> 0%Z) /\
  (status_code r <> 200%Z -> status_code r = 500%Z) /\
  (forall c m d, cpu_percent h = Ok c -> virtual_memory h = Ok m ->
     disk_usage h = Ok d -> sdiskusage.total d = 0%Z ->
     r = metrics_error "division by zero").
Proof.
  intros Hr. pose proof (metrics_of_try self h) as Hm.
  destruct (metrics_try self h) as [r'|e] eqn:Ht.
  - assert (r' = r) as -> by congruence.
    destruct (metrics_try_inv self h r Ht)
      as (c & m & d & Hc & Hme & Hd & Hnz & Hs & _).
    split; [|split].
    + split; [intros _; by exists c, m, d | done].
    + by rewrite Hs.
    + intros c' m' d' _ _ Hd' Hz. congruence.
  - assert (r = metrics_error e) as -> by congruence.
    split; [|split; [done|]].
    + split; [done|]. intros (c & m & d & Hc & Hme & Hd & Hnz).
      revert Ht. unfold metrics_try. rewrite Hc, Hme, Hd.
      cbn [mbind result_bind]. by rewrite (truediv_ok _ _ Hnz).
    + intros c m d Hc Hme Hd Hz. revert Ht. unfold metrics_try.
      rewrite Hc, Hme, Hd. cbn [mbind result_bind]. rewrite Hz.
      by intros [= <-].
Qed.

Lemma metrics_200_iff_reads_return_witness :
  metrics actuator0 host_zero_total = Ok (metrics_error "division by zero").
Proof.
  assert (exists r, metrics actuator0 host_zero_total = Ok r) as [r Hr]
    by (eexists; reflexivity).
  destruct (metrics_200_iff_reads_return actuator0 host_zero_total r Hr)
    as (_ & _ & Hz).
  rewrite Hr. f_equal.
  by apply (Hz (1 # 1)%Q mem_half disk_empty).
Defined.

(** ** What a 200 answer of [health] holds *)

Lemma health_try_payload (h : Host) (d : sdiskusage.t) (m : svmem.t) (r : response) :
  disk_usage h = Ok d -> virtual_memory h = Ok m -> sdiskusage.total d <> 0%Z ->
  health_try h = Ok r ->
  get_path ["components"; "diskSpace"; "details"; "total"] (body r) =
    Some (JInt (sdiskusage.total d)) /\
  get_path ["components"; "diskSpace"; "details"; "free"] (body r) =
    Some (JInt (sdiskusage.free d)) /\
  get_path ["components"; "diskSpace"; "details"; "threshold"] (body r) =
    Some (JNum (inject_Z (sdiskusage.total d) * (1 # 10))%Q) /\
  get_path ["components"; "diskSpace"; "details"; "exists"] (body r) =
    Some (JBool true) /\
  get_path ["components"; "memory"; "details"; "percent"] (body r) =
    Some (JNum (svmem.percent m)).
Proof.
  intros Hd Hm Ht. unfold health_try. rewrite Hd. cbn [mbind result_bind].
  rewrite (truediv_ok _ _ Ht). cbn [mbind result_bind]. rewrite Hm.
  cbn [mbind result_bind]. intros [= <-]. repeat split; reflexivity.
Qed.

(** In a 200 answer the overall status is "UP" exactly when the disk and the
    memory component both are; each status is "UP" or "DOWN"; the ping
    component is always "UP" and the disk is always reported as existing. *)
Theorem health_overall_is_conjunction
    (self : FlaskActuator) (h : Host) (r : response) :
  health self h = Ok r -> status_code r = 200%Z ->
  exists overall ds ms : string,
    get_path ["status"] (body r) = Some (JStr overall) /\
    get_path ["components"; "diskSpace"; "status"] (body r) = Some (JStr ds) /\
    get_path ["components"; "memory"; "status"] (body r) = Some (JStr ms) /\
    (overall = "UP" <-> ds = "UP" /\ ms = "UP") /\
    (overall = "UP" \/ overall = "DOWN") /\
    (ds = "UP" \/ ds = "DOWN") /\ (ms = "UP" \/ ms = "DOWN") /\
    get_path ["components"; "ping"; "status"] (body r) = Some (JStr "UP") /\
    get_path ["components"; "diskSpace"; "details"; "exists"] (body r) =
      Some (JBool true).
Proof.
  intros Hr Hc.
  destruct (health_200_inv self h r Hr Hc) as (d & m & Hd & Hm & Hnz & Htry).
  destruct (health_try_ok h d m Hd Hm Hnz) as (r' & Hr' & _ & Hs & Hds & Hms & Hp).
  assert (r' = r) as -> by congruence.
  destruct (health_try_payload h d m r Hd Hm Hnz Hr') as (_ & _ & _ & He & _).
  eexists _, (disk_status_of d), (memory_status_of m).
  split; [exact Hs|]. split; [exact Hds|]. split; [exact Hms|].
  unfold disk_status_of, memory_status_of. rewrite !status_eqb_up.
  destruct (Qltb 10 (free_ratio d * 100)), (Qltb (svmem.percent m) 90); cbn;
    repeat split; auto; try done; by intros [? ?].
Qed.

Lemma health_overall_is_conjunction_witness :
  exists r, health actuator0 host_low_disk = Ok r /\
    get_path ["components"; "ping"; "status"] (body r) = Some (JStr "UP").
Proof.
  eexists. split; [reflexivity|].
  destruct (health_overall_is_conjunction actuator0 host_low_disk _
              eq_refl eq_refl) as (? & ? & ? & _ & _ & _ & _ & _ & _ & _ & Hp & _).
  exact Hp.
Defined.




(** ** The two uptimes *)

Lemma int_of_float_floor (x : Q) :
  (0 <= x)%Q ->
  (0 <= int_of_float x)%Z /\
  (inject_Z (int_of_float x) <= x)%Q /\ (x < inject_Z (int_of_float x) + 1)%Q.
Proof.
  destruct x as [n d]. unfold Qle, Qlt, int_of_float. cbn. intros Hn.
  assert (0 <= n)%Z as Hn' by lia.
  rewrite Z.quot_div_nonneg by lia.
  pose proof (Z.mul_div_le n (Z.pos d) ltac:(lia)).
  pose proof (Z.mul_succ_div_gt n (Z.pos d) ltac:(lia)).
  pose proof (Z.div_pos n (Z.pos d) Hn' ltac:(lia)).
  split; [done|]. split; lia.
Qed.

(** On one and the same clock reading, not earlier than the start time, the
    whole seconds in the uptime text of [info] are the integer part of the
    uptime value of [metrics]: never negative, at most the value, and less
    than one second short of it. *)
Theorem info_uptime_is_floor_of_metrics_uptime
    (self : FlaskActuator) (h : Host) :
  (start_time self <= time_time h)%Q ->
  exists n : Z,
    get_path ["app"; "uptime"] (body (info self h)) =
      Some (JStr (str_of_int n +:+ "s")) /\
    (0 <= n)%Z /\
    forall r, metrics self h = Ok r -> status_code r = 200%Z ->
      exists v : Q,
        get_path ["measurements"; "process.uptime"; "value"] (body r) =
          Some (JNum v) /\
        (inject_Z n <= v)%Q /\ (v < inject_Z n + 1)%Q.
Proof.
  intros Ht. exists (uptime_seconds self h).
  assert (0 <= uptime self h)%Q as Hu by (unfold uptime; lra).
  destruct (int_of_float_floor _ Hu) as (H0 & Hle & Hlt).
  split; [apply info_uptime_field|]. split; [exact H0|].
  intros r Hr Hc. apply metrics_success in Hr; [|done].
  destruct (metrics_try_inv self h r Hr) as (? & ? & ? & _ & _ & _ & _ & _ & ->).
  exists (uptime self h). split; [reflexivity|]. by split.
Qed.

Lemma info_uptime_is_floor_of_metrics_uptime_witness :
  exists n : Z,
    get_path ["app"; "uptime"] (body (info actuator0 host_healthy)) =
      Some (JStr (str_of_int n +:+ "s")) /\ (0 <= n)%Z.
Proof.
  assert (start_time actuator0 <= time_time host_healthy)%Q as Ht
    by (vm_compute; discriminate).
  destruct (info_uptime_is_floor_of_metrics_uptime actuator0 host_healthy Ht)
    as (n & Hn & H0 & _).
  by exists n.
Defined.

(** ** The active profile, and what the denylist catches *)

(** The one active profile [env] reports is the environment label [info]
    reports; when ENVIRONMENT is set it is also the value published for that
    variable (its name is not on the denylist), else it is "development". *)
Theorem env_active_profile_is_info_environment
    (self : FlaskActuator) (h : Host) :
  exists label : string,
    get_path ["activeProfiles"] (body (env self h)) = Some (JArr [JStr label]) /\
    get_path ["environment"] (body (info self h)) = Some (JStr label) /\
    match environ h !! "ENVIRONMENT" with
    | Some v => label = v /\ safe_env_vars h !! "ENVIRONMENT" = Some v
    | None => label = "development"
    end.
Proof.
  exists (getenv h "ENVIRONMENT" "development").
  split; [reflexivity|]. split; [reflexivity|].
  unfold getenv. destruct (environ h !! "ENVIRONMENT") as [v|] eqn:E; [|done].
  split; [done|]. by rewrite safe_env_vars_lookup, E.
Qed.

(** The denylist test looks only at the name up to letter case, and a name
    stays caught whatever is written before or after it. *)
Theorem is_sensitive_case_and_context (k : string) :
  (forall k', lower k' = lower k -> is_sensitive k' = is_sensitive k) /\
  (is_sensitive k = true ->
     forall a b, is_sensitive (a +:+ k +:+ b) = true).
Proof.
  split.
  - intros k' Hk. unfold is_sensitive. by rewrite Hk.
  - intros Hk a b. apply is_sensitive_spec.
    apply is_sensitive_spec in Hk as (sub & Hin & (x & w & y & -> & Hw)).
    exists sub. split; [done|]. exists (a +:+ x), w, (y +:+ b).
    split; [|done].
    clear. induction a as [|c a IH]; [|by rewrite !append_cons, IH].
    rewrite !append_nil. induction x as [|c x IHx]; [|by rewrite !append_cons, IHx].
    rewrite !append_nil. induction w as [|c w IHw]; [|by rewrite !append_cons, IHw].
    by rewrite !append_nil.
Qed.

Lemma is_sensitive_case_and_context_witness :
  is_sensitive "MY_" = false /\ is_sensitive "MY_Token_2" = true.
Proof.
  split; [reflexivity|].
  apply (proj2 (is_sensitive_case_and_context "Token") eq_refl "MY_" "_2").
Defined.

(** ** [configprops] *)

(** [configprops] depends on four variables only: whatever else differs
    between two hosts (and two actuators), equal FLASK_DEBUG, FLASK_TESTING,
    PORT and HOST give equal answers; each property is the variable's value
    when set and "False", "False", "8080", "0.0.0.0" when not. *)
Theorem configprops_reads_four_variables
    (self1 self2 : FlaskActuator) (h1 h2 : Host) :
  Forall (fun k => environ h1 !! k = environ h2 !! k)
    [ "FLASK_DEBUG"; "FLASK_TESTING"; "PORT"; "HOST" ] ->
  configprops self1 h1 = configprops self2 h2 /\
  status_code (configprops self1 h1) = 200%Z /\
  Forall (fun '(name, var, otherwise) =>
            get_path ["contexts"; "application"; "beans"; "flask-config";
                      "properties"; name] (body (configprops self1 h1)) =
              Some (JStr (default otherwise (environ h1 !! var))))
    [ ("debug", "FLASK_DEBUG", "False"); ("testing", "FLASK_TESTING", "False");
      ("port", "PORT", "8080"); ("host", "HOST", "0.0.0.0") ].
Proof.
  intros H. repeat (apply Forall_cons in H as [? H]).
  split; [|split].
  - unfold configprops, getenv. by repeat match goal with E : _ = _ |- _ => rewrite E; clear E end.
  - reflexivity.
  - repeat constructor; unfold configprops, getenv;
      by destruct (environ h1 !! _).
Qed.

Lemma configprops_reads_four_variables_witness :
  configprops actuator0 host_healthy = configprops actuator0 host_later /\
  get_path ["contexts"; "application"; "beans"; "flask-config";
            "properties"; "port"] (body (configprops actuator0 host_healthy)) =
    Some (JStr "9090").
Proof.
  assert (Forall (fun k => environ host_healthy !! k = environ host_later !! k)
            [ "FLASK_DEBUG"; "FLASK_TESTING"; "PORT"; "HOST" ]) as H
    by (repeat constructor).
  destruct (configprops_reads_four_variables actuator0 actuator0
              host_healthy host_later H) as (Heq & _ & Hf).
  split; [exact Heq|].
  apply Forall_cons in Hf as [_ Hf]. apply Forall_cons in Hf as [_ Hf].
  apply Forall_cons in Hf as [Hp _]. exact Hp.
Defined.

(** * Properties of [app.py] *)

(** ** Slices and stripping *)

Lemma slice_to_length (n : nat) (s : string) : String.length (slice_to n s) <= n.
Proof.
  revert s. induction n as [|n IH]; intros [|c s]; cbn; try lia.
  specialize (IH s). lia.
Qed.

Lemma slice_to_truthy (n : nat) (s : string) :
  truthy s = true -> truthy (slice_to (S n) s) = true.
Proof. by destruct s. Qed.

Lemma slice_to_prefix (n : nat) (s : string) :
  exists rest, s = slice_to n s +:+ rest.
Proof.
  revert s. induction n as [|n IH]; intros s.
  - exists s. by destruct s.
  - destruct s as [|c s]; [by exists ""|].
    destruct (IH s) as [rest Hr]. exists rest. cbn [slice_to].
    by rewrite append_cons, <- Hr.
Qed.





(** ** [get_git_commit_hash] *)

Lemma usable_iff (s : string) :
  usable s = false <-> s = "" \/ s = "unknown".
Proof.
  unfold usable. destruct s as [|c s]; cbn [truthy andb]; [by split; auto|].
  destruct (String.eqb_spec (String c s) "unknown") as [->|Hne]; cbn.
  - split; auto.
  - split; [done | by intros [|]].
Qed.

Lemma usable_slice (s : string) :
  usable s = true ->
  truthy (slice_to 8 s) = true /\ String.length (slice_to 8 s) <= 8.
Proof.
  unfold usable. intros [Ht _]%andb_true_iff.
  split; [exact (slice_to_truthy 7 _ Ht) | exact (slice_to_length 8 _)].
Qed.

Lemma git_stdout_short (r : Z * string) (c : string) :
  git_stdout r = Some c -> truthy c = true /\ String.length c <= 8.
Proof.
  unfold git_stdout.
  destruct (_ && _) eqn:E; [|done]. intros [= <-].
  apply andb_true_iff in E as [_ Ht].
  split; [exact (slice_to_truthy 7 _ Ht) | exact (slice_to_length 8 _)].
Qed.

Lemma commit_file_block_short (a : AppHost) (c : string) :
  commit_file_block a = Ok (Some c) ->
  truthy c = true /\ String.length c <= 8.
Proof.
  unfold commit_file_block.
  destruct (commit_file a) as [[raw|e]|]; cbn [mbind result_bind]; try done.
  destruct (usable (strip raw)) eqn:E; [|done]. intros [= <-].
  by apply usable_slice.
Qed.

Lemma git_block_short (a : AppHost) (c : string) :
  git_block a = Ok (Some c) -> truthy c = true /\ String.length c <= 8.
Proof.
  unfold git_block.
  destruct (git_rev_parse_app a) as [r|e]; cbn [mbind result_bind]; [|done].
  destruct (git_stdout r) as [c'|] eqn:E.
  - intros [= <-]. by eapply git_stdout_short.
  - destruct (git_rev_parse_parent a) as [r'|e]; cbn [mbind result_bind]; [|done].
    intros [= H]. by eapply git_stdout_short.
Qed.

(** With GIT_COMMIT_HASH giving nothing, the function goes on to the file
    and then to git. *)
Lemma get_git_commit_hash_no_env (a : AppHost) :
  env_commit_unusable (host a) ->
  get_git_commit_hash a =
    let '(from_file, out1) :=
      match commit_file_block a with
      | Ok r => (r, [])
      | Raise e => (None, ["Error reading commit file: " +:+ e])
      end in
    match from_file with
    | Some c => (c, out1)
    | None =>
        match git_block a with
        | Ok (Some c) => (c, out1)
        | Ok None => ("unknown", out1)
        | Raise e =>
            ("unknown", (out1 ++ ["Error running git command: " +:+ e])%list)
        end
    end.
Proof.
  unfold env_commit_unusable, get_git_commit_hash.
  destruct (environ (host a) !! "GIT_COMMIT_HASH") as [c|]; [|done].
  by intros ->.
Qed.

(** Whatever the host, the hash returned is not empty and has at most eight
    characters: a slice of a usable value, or the placeholder "unknown". *)
Theorem get_git_commit_hash_is_short (a : AppHost) :
  truthy (get_git_commit_hash a).1 = true /\
  String.length (get_git_commit_hash a).1 <= 8.
Proof.
  unfold get_git_commit_hash.
  destruct (environ (host a) !! "GIT_COMMIT_HASH") as [c|].
  2: destruct (commit_file_block a) as [[c'|]|e] eqn:Ef.
  1: destruct (usable c) eqn:Eu; [by apply usable_slice|];
     destruct (commit_file_block a) as [[c'|]|e] eqn:Ef.
  all: try (by eapply commit_file_block_short).
  all: destruct (git_block a) as [[c''|]|e'] eqn:Eg; cbn;
    try (by eapply git_block_short); by (split; [|lia]).
Qed.

(** A usable GIT_COMMIT_HASH wins: the function returns its first eight
    characters without printing anything, whatever the commit file and git
    would give, while [info] reports the value in full. *)
Theorem get_git_commit_hash_prefers_env
    (self : FlaskActuator) (a : AppHost) (c : string) :
  environ (host a) !! "GIT_COMMIT_HASH" = Some c ->
  c <> "" -> c <> "unknown" ->
  get_git_commit_hash a = (slice_to 8 c, []) /\
  get_path ["git"; "commit"; "id"] (body (info self (host a))) = Some (JStr c) /\
  exists rest, c = slice_to 8 c +:+ rest.
Proof.
  intros Hc Hne Hnu.
  assert (usable c = true) as Hu.
  { destruct (usable c) eqn:E; [done|]. apply usable_iff in E as [|]; done. }
  split; [|split].
  - unfold get_git_commit_hash. by rewrite Hc, Hu.
  - destruct (info_fields self (host a)) as (_ & _ & _ & _ & _ & _ & _ & F & _).
    cbv zeta in F. by rewrite F, (getenv_set _ _ _ c Hc).
  - apply slice_to_prefix.
Qed.

Lemma get_git_commit_hash_prefers_env_witness :
  get_git_commit_hash app_host_env = ("abc12345", []) /\
  get_path ["git"; "commit"; "id"] (body (info actuator0 (host app_host_env))) =
    Some (JStr "abc12345def67890").
Proof.
  destruct (get_git_commit_hash_prefers_env actuator0 app_host_env
              "abc12345def67890" eq_refl) as (Hg & Hi & _); [done..|].
  split; [exact Hg | exact Hi].
Defined.

(** An empty GIT_COMMIT_HASH and the value "unknown" count as unset: two
    hosts on which the variable is any of the three, and which agree on the
    commit file and on git, give the same result and the same output. *)
Theorem get_git_commit_hash_placeholder_is_unset (a1 a2 : AppHost) :
  environ (host a1) !! "GIT_COMMIT_HASH" ∈ [None; Some ""; Some "unknown"] ->
  environ (host a2) !! "GIT_COMMIT_HASH" ∈ [None; Some ""; Some "unknown"] ->
  commit_file a1 = commit_file a2 ->
  git_rev_parse_app a1 = git_rev_parse_app a2 ->
  git_rev_parse_parent a1 = git_rev_parse_parent a2 ->
  get_git_commit_hash a1 = get_git_commit_hash a2.
Proof.
  intros H1 H2 Hf Hg Hp.
  assert (forall a, environ (host a) !! "GIT_COMMIT_HASH"
                      ∈ [None; Some ""; Some "unknown"] ->
                    env_commit_unusable (host a)) as Hun.
  { intros a Ha. unfold env_commit_unusable.
    repeat (apply elem_of_cons in Ha as [->|Ha]; [done|]).
    by apply elem_of_nil in Ha. }
  rewrite !get_git_commit_hash_no_env by auto.
  unfold commit_file_block, git_block. by rewrite Hf, Hg, Hp.
Qed.

Lemma get_git_commit_hash_placeholder_is_unset_witness :
  get_git_commit_hash app_host_git_unknown = get_git_commit_hash app_host_git /\
  get_git_commit_hash app_host_git = ("fedcba98", []).
Proof.
  split; [|reflexivity].
  apply get_git_commit_hash_placeholder_is_unset; try reflexivity.
  - change (Some "unknown" ∈ [None; Some ""; Some "unknown"]).
    apply list_elem_of_further, list_elem_of_further, list_elem_of_here.
  - change (None ∈ [None; Some ""; Some "unknown"]).
    apply list_elem_of_here.
Defined.



(** With nothing usable in the variable and in the commit file (absent, or
    blank, or "unknown"): if running git in the app directory raises, the
    result is "unknown" with one line printed, whatever the parent directory
    would give; if it returns with a non-zero code or blank output, the
    parent directory is tried and a successful answer there is used. *)
Theorem get_git_commit_hash_git_order (a : AppHost) :
  env_commit_unusable (host a) ->
  commit_file_block a = Ok None ->
  (forall e, git_rev_parse_app a = Raise e ->
     get_git_commit_hash a =
       ("unknown", ["Error running git command: " +:+ e])) /\
  (forall code out out',
     git_rev_parse_app a = Ok (code, out) ->
     code <> 0%Z \/ strip out = "" ->
     git_rev_parse_parent a = Ok (0%Z, out') -> strip out' <> "" ->
     get_git_commit_hash a = (slice_to 8 (strip out'), [])) /\
  (forall out, git_rev_parse_app a = Ok (0%Z, out) -> strip out <> "" ->
     get_git_commit_hash a = (slice_to 8 (strip out), [])).
Proof.
  intros He Hf. rewrite (get_git_commit_hash_no_env a He), Hf.
  assert (forall s, s <> "" -> truthy s = true) as Htr by (by intros [|]).
  unfold git_block. split; [|split].
  - by intros e ->.
  - intros code out out' -> Hbad -> Hout'. cbn [mbind result_bind].
    assert (git_stdout (code, out) = None) as ->.
    { unfold git_stdout. cbn [fst snd]. destruct Hbad as [Hc| ->].
      - by destruct (Z.eqb_spec code 0).
      - by rewrite andb_false_r. }
    unfold git_stdout. cbn [fst snd]. by rewrite (Htr _ Hout').
  - intros out -> Hout. cbn [mbind result_bind].
    unfold git_stdout. cbn [fst snd]. by rewrite (Htr _ Hout).
Qed.

Lemma get_git_commit_hash_git_order_witness :
  get_git_commit_hash app_host_git = ("fedcba98", []).
Proof.
  destruct (get_git_commit_hash_git_order app_host_git I eq_refl)
    as (_ & Hparent & _).
  apply (Hparent 128%Z "" ("fedcba9876543210" +:+ newline));
    [reflexivity | by left | reflexivity | discriminate].
Defined.

(** A commit file that exists but cannot be read does not stop the
    function: the error is printed, git is tried next, and if git raises
    too the result is "unknown" with both errors printed. *)
Theorem get_git_commit_hash_survives_errors (a : AppHost) (e1 : string) :
  env_commit_unusable (host a) ->
  commit_file a = Some (Raise e1) ->
  (forall e2, git_rev_parse_app a = Raise e2 ->
     get_git_commit_hash a =
       ("unknown", [ "Error reading commit file: " +:+ e1;
                     "Error running git command: " +:+ e2 ])) /\
  (forall out, git_rev_parse_app a = Ok (0%Z, out) -> strip out <> "" ->
     get_git_commit_hash a =
       (slice_to 8 (strip out), ["Error reading commit file: " +:+ e1])).
Proof.
  intros He Hf. rewrite (get_git_commit_hash_no_env a He).
  unfold commit_file_block, git_block. rewrite Hf. cbn [mbind result_bind].
  split.
  - by intros e2 ->.
  - intros out -> Hout. cbn [mbind result_bind]. unfold git_stdout.
    cbn [fst snd]. by destruct (strip out).
Qed.

Lemma get_git_commit_hash_survives_errors_witness :
  get_git_commit_hash app_host_broken =
    ("unknown",
     [ "Error reading commit file: [Errno 13] Permission denied: 'commit.txt'";
       "Error running git command: [Errno 2] No such file or directory: 'git'" ]).
Proof.
  destruct (get_git_commit_hash_survives_errors app_host_broken
              "[Errno 13] Permission denied: 'commit.txt'" I eq_refl) as [Hg _].
  by apply Hg.
Defined.

(** ** [get_kubernetes_namespace] *)



(** With the namespace file absent or unreadable (the error is swallowed),
    the result is KUBERNETES_NAMESPACE when that is set, even to the empty
    string; otherwise it is the environment label of [info], that is,
    ENVIRONMENT or "development". *)
Theorem namespace_fallback (self : FlaskActuator) (a : AppHost) :
  namespace_file a = None \/ (exists e, namespace_file a = Some (Raise e)) ->
  match environ (host a) !! "KUBERNETES_NAMESPACE" with
  | Some ns => get_kubernetes_namespace a = ns
  | None =>
      get_path ["environment"] (body (info self (host a))) =
        Some (JStr (get_kubernetes_namespace a)) /\
      get_kubernetes_namespace a =
        default "development" (environ (host a) !! "ENVIRONMENT")
  end.
Proof.
  intros Hf.
  assert (get_kubernetes_namespace a =
            getenv (host a) "KUBERNETES_NAMESPACE"
              (getenv (host a) "ENVIRONMENT" "development")) as ->.
  { unfold get_kubernetes_namespace. by destruct Hf as [->|[e ->]]. }
  destruct (environ (host a) !! "KUBERNETES_NAMESPACE") as [ns|] eqn:E.
  - by apply getenv_set.
  - rewrite (getenv_unset _ _ _ E). split; [reflexivity|]. unfold getenv.
    by destruct (environ (host a) !! "ENVIRONMENT").
Qed.

Lemma namespace_fallback_witness :
  get_kubernetes_namespace app_host_env = "staging" /\
  get_kubernetes_namespace app_host_git_unknown = "team-a".
Proof.
  split.
  - apply (namespace_fallback actuator0 app_host_env). by left.
  - apply (namespace_fallback actuator0 app_host_git_unknown). by left.
Defined.

(** ** The application and its routes *)



(** [/healthz] answers 200 with status "ok" and prints nothing, on every
    host, whether or not the actuator could be imported when the app was
    built: what the repository's test asserts. *)
Theorem healthz_always_ok (startup request : AppHost) :
  handle (create_app startup).1 "/healthz" request =
    Some (Ok ({| http_body := JsonBody (JObj {[ "status" := JStr "ok" ]});
                 http_status := 200 |}, [])).
Proof. unfold create_app. by destruct (actuator_import startup). Qed.



(** Every link of the actuator index leads somewhere, and nothing is left
    out: the hrefs of the index are exactly the rules the actuator
    registers, and each has a view on an app built with the actuator. *)
Theorem actuator_index_links_are_routes (self : FlaskActuator) :
  (forall href, href ∈ index_hrefs self <->
     href ∈ map fst (url_map (register_endpoints self Flask_new))) /\
  status_code (actuator_index self) = 200%Z /\
  forall a href, actuator_import a = Ok () -> href ∈ index_hrefs self ->
    is_Some (dispatch (create_app a).1 href).
Proof.
  assert (index_hrefs self ⊆
            [ "/actuator"; "/actuator/health"; "/actuator/info";
              "/actuator/metrics"; "/actuator/env"; "/actuator/configprops" ])
    as Hsub.
  { apply (bool_decide_unpack (_ ⊆ _)). vm_compute. exact I. }
  assert ([ "/actuator"; "/actuator/health"; "/actuator/info";
              "/actuator/metrics"; "/actuator/env"; "/actuator/configprops" ] ⊆ index_hrefs self)
    as Hsup.
  { apply (bool_decide_unpack (_ ⊆ _)). vm_compute. exact I. }
  split; [|split; [reflexivity|]].
  - intros href. split; [apply Hsub | apply Hsup].
  - intros a href Hi Hin. unfold create_app. rewrite Hi.
    apply Hsub in Hin.
    repeat (apply elem_of_cons in Hin as [->|Hin]; [eexists; vm_compute; reflexivity|]).
    by apply elem_of_nil in Hin.
Qed.


(** ** [debug] and [home] *)

Lemma debug_inv (a : AppHost) (r : response) (out : list string) :
  debug a = Ok (r, out) ->
  out = (get_git_commit_hash a).2 /\
  status_code r = 200%Z /\
  get_path ["computed_commit_hash"] (body r) =
    Some (JStr (get_git_commit_hash a).1) /\
  get_path ["environment"] (body r) = Some (JStr (get_kubernetes_namespace a)).
Proof.
  unfold debug. destruct (getcwd a) as [cwd|e]; [|done].
  cbn [mbind result_bind].
  destruct (get_git_commit_hash a) as [c o].
  intros [= <- <-].
  destruct (commit_file a) as [[raw|e]|];
    (repeat split; vm_compute; reflexivity).
Qed.


(** [home] answers 200 with the greeting built from the namespace and the
    commit hash; it prints what [get_git_commit_hash] printed and then its
    three debug lines. On the same host [debug] reports the same hash and
    the same environment, and prints the same lines before its answer. *)
Theorem home_greeting (a : AppHost) :
  exists commit out,
    get_git_commit_hash a = (commit, out) /\
    (home a).1 =
      {| http_body :=
           TextBody ("Hello from Flask! | Environment: " +:+
                     get_kubernetes_namespace a +:+ " | Commit: " +:+ commit);
         http_status := 200 |} /\
    (home a).2 =
      (out ++ [ "Debug - Commit hash: " +:+ commit;
                "Debug - Environment: " +:+ get_kubernetes_namespace a;
                "Debug - GIT_COMMIT_HASH env var: " +:+
                  default "Not set" (environ (host a) !! "GIT_COMMIT_HASH") ])%list /\
    (forall r out', debug a = Ok (r, out') ->
       out' = out /\
       get_path ["computed_commit_hash"] (body r) = Some (JStr commit) /\
       get_path ["environment"] (body r) =
         Some (JStr (get_kubernetes_namespace a))).
Proof.
  pose proof (debug_inv a) as Hd.
  unfold home. destruct (get_git_commit_hash a) as [c out] eqn:E.
  exists c, out. split; [done|]. split; [reflexivity|]. split.
  - cbn [snd]. unfold getenv.
    by destruct (environ (host a) !! "GIT_COMMIT_HASH").
  - intros r out' Hr. apply Hd in Hr as (-> & _ & Hc & He). done.
Qed.

(** ** Construction of the actuator *)

Lemma int_of_float_zero (x : Q) : (x == 0)%Q -> int_of_float x = 0%Z.
Proof.
  destruct x as [n d]. unfold Qeq, int_of_float. cbn. intros H.
  assert (n = 0%Z) as -> by lia. reflexivity.
Qed.

(** An actuator starts its clock when it is constructed: asked at that very
    reading it reports an uptime of "0s", and at any later reading a
    number of seconds that is not negative. Given an app, the constructor
    registers the six endpoints on it; given none, it registers nothing. *)
Theorem new_actuator_uptime (h : Host) (app : option Flask) :
  let self := (FlaskActuator_init h app).1 in
  start_time self = time_time h /\
  get_path ["app"; "uptime"] (body (info self h)) = Some (JStr "0s") /\
  (forall h', (time_time h <= time_time h')%Q ->
     (0 <= uptime_seconds self h')%Z) /\
  (FlaskActuator_init h app).2 = register_endpoints self <$> app.
Proof.
  assert ((FlaskActuator_init h app).1 = {| start_time := time_time h |}) as ->
    by (by destruct app).
  cbv zeta. split; [reflexivity|]. split; [|split].
  - rewrite info_uptime_field. unfold uptime_seconds, uptime.
    rewrite int_of_float_zero; [reflexivity|]. cbn [start_time]. lra.
  - intros h' Ht. unfold uptime_seconds, uptime. cbn [start_time].
    apply int_of_float_floor. lra.
  - by destruct app.
Qed.
